(** * Shallow embedding of multiproxy (github.com/akabos/multiproxy)

    Go strings are modelled as Rocq [string]s over ASCII bytes; Go [int]s as
    [Z]; Go errors as an inductive tree with [Unwrap] links; the HTTP header
    map [http.Header] as a [gmap string (list string)] keyed by canonical
    MIME header keys. *)

From Stdlib Require Import ZArith Lia Ascii String DecimalString.
From stdpp Require Import base gmap strings list.

Open Scope Z_scope.

(* ------------------------------------------------------------------ *)
(** ** Go standard library: strings *)

Module GoStrings.

(** [strings.HasPrefix]: [len(s) >= len(prefix) && s[0:len(prefix)] == prefix]. *)
Definition HasPrefix (s prefix : string) : bool :=
  (String.length prefix <=? String.length s)%nat &&
  String.eqb (String.substring 0 (String.length prefix) s) prefix.

(** [strings.HasSuffix]: [len(s) >= len(suffix) && s[len(s)-len(suffix):] == suffix]. *)
Definition HasSuffix (s suffix : string) : bool :=
  (String.length suffix <=? String.length s)%nat &&
  String.eqb
    (String.substring (String.length s - String.length suffix)
       (String.length suffix) s) suffix.

(** Byte index of the last occurrence of [c], [-1] when absent
    ([strings.LastIndexByte]). *)
Fixpoint last_index_aux (c : ascii) (s : string) (i : Z) (acc : Z) : Z :=
  match s with
  | EmptyString => acc
  | String d s' =>
      last_index_aux c s' (i + 1) (if Ascii.eqb c d then i else acc)
  end.

Definition LastIndexByte (s : string) (c : ascii) : Z := last_index_aux c s 0 (-1).

(** Byte index of the first occurrence of [c], [-1] when absent
    ([strings.IndexByte]). *)
Fixpoint IndexByte (s : string) (c : ascii) : Z :=
  match s with
  | EmptyString => -1
  | String d s' =>
      if Ascii.eqb c d then 0
      else let r := IndexByte s' c in if r <? 0 then -1 else r + 1
  end.

(** Go slice expressions [s[i:j]] and [s[i:]] on strings. *)
Definition slice (s : string) (i j : Z) : string :=
  String.substring (Z.to_nat i) (Z.to_nat (j - i)) s.

Definition slice_from (s : string) (i : Z) : string :=
  slice s i (Z.of_nat (String.length s)).

(** [s[i]] for [0 <= i < len(s)]. *)
Definition byte_at (s : string) (i : Z) : option ascii :=
  String.get (Z.to_nat i) s.

Definition len (s : string) : Z := Z.of_nat (String.length s).

End GoStrings.

Import GoStrings.

(* ------------------------------------------------------------------ *)
(** ** Go standard library: [net.ParseIP] (go1.15 net/ip.go)

    IPv4 parsing is written out; the IPv6 parser ([parseIPv6]) is a
    parameter of the development. An [IP] is the Go byte slice, here a
    list of bytes as [Z]. *)

Definition IP := list Z.

Definition is_digit (c : ascii) : bool :=
  let n := nat_of_ascii c in (48 <=? n)%nat && (n <=? 57)%nat.

Definition digit_val (c : ascii) : Z := Z.of_nat (nat_of_ascii c) - 48.

(** [big = 0xFFFFFF] in net/parse.go. *)
Definition big : Z := 16777215.

(** [dtoi]: decimal to integer; returns [(n, i, ok)] where [i] is the
    number of bytes consumed. *)
Fixpoint dtoi_loop (s : string) (n : Z) (i : nat) : Z * nat * bool :=
  match s with
  | String c s' =>
      if is_digit c then
        let n' := n * 10 + digit_val c in
        if big <=? n' then (big, i, false) else dtoi_loop s' n' (S i)
      else (n, i, true)
  | EmptyString => (n, i, true)
  end.

Definition dtoi (s : string) : Z * nat * bool :=
  match dtoi_loop s 0 0 with
  | (n, i, true) => if Nat.eqb i 0 then (0, 0%nat, false) else (n, i, true)
  | r => r
  end.

(** [IPv4(a,b,c,d)]: the 16-byte IPv4-in-IPv6 form. *)
Definition v4InV6Prefix : list Z := [0;0;0;0;0;0;0;0;0;0;255;255].

Definition IPv4 (p : list Z) : IP := v4InV6Prefix ++ p.

(** The loop [for i := 0; i < IPv4len; i++] of [parseIPv4], with [k]
    iterations left and the octets read so far. *)
Fixpoint parseIPv4_loop (k : nat) (i : nat) (s : string) (p : list Z) : option IP :=
  match k with
  | O => match s with EmptyString => Some (IPv4 p) | _ => None end
  | S k' =>
      match s with
      | EmptyString => None
      | _ =>
          let s1 :=
            if Nat.eqb i 0 then Some s
            else match s with
                 | String "." s' => Some s'
                 | _ => None
                 end in
          match s1 with
          | None => None
          | Some s1 =>
              match dtoi s1 with
              | (n, c, ok) =>
                  if negb ok || (255 <? n) then None
                  else parseIPv4_loop k' (S i) (String.substring c (String.length s1 - c) s1) (p ++ [n])
              end
          end
      end
  end.

Definition parseIPv4 (s : string) : option IP := parseIPv4_loop 4 0 s [].

Section ParseIP.
Variable parseIPv6 : string -> option IP.

  (** [net.ParseIP]: the first ['.'] or [':'] decides the family. *)
Fixpoint ParseIP_scan (s full : string) : option IP :=
    match s with
    | EmptyString => None
    | String c s' =>
        if Ascii.eqb c "." then parseIPv4 full
        else if Ascii.eqb c ":" then parseIPv6 full
        else ParseIP_scan s' full
    end.

Definition ParseIP (s : string) : option IP := ParseIP_scan s s.
End ParseIP.

(* ------------------------------------------------------------------ *)
(** ** pkg/router/matcher.go *)

(** The handlers the router can dispatch to: a registered handler, named
    by the caller, or one of the two package-level fallbacks
    [router.NotFound] and [router.MethodNotAllowed]. *)
Inductive handler :=
| HUser (name : string)
| HNotFound
| HMethodNotAllowed.

Module Matcher.
Section Matcher.
Variable parseIPv6 : string -> option IP.

Record matcher := { tpl : string; mhandler : handler }.

  (** [matcher.init] *)
Definition isSuffix (m : matcher) : bool := HasPrefix (tpl m) ".".
Definition isIP (m : matcher) : bool :=
    match ParseIP parseIPv6 (tpl m) with Some _ => true | None => false end.

Definition matchesExact (m : matcher) (hostname : string) : bool :=
    String.eqb hostname (tpl m).

Definition matchesIP (m : matcher) (ip : string) : bool := matchesExact m ip.

Definition matchesSuffix (m : matcher) (hostname : string) : bool :=
    if len hostname =? len (tpl m) - 1 then HasSuffix (tpl m) hostname
    else HasSuffix hostname (tpl m).

Definition matches (m : matcher) (hostname : string) : bool :=
    if isIP m then matchesIP m hostname
    else if isSuffix m then matchesSuffix m hostname
    else matchesExact m hostname.
End Matcher.
End Matcher.

(* ------------------------------------------------------------------ *)
(** ** pkg/router/router.go *)

(** [url.URL.Hostname]: strip a valid optional [:port] and IPv6 brackets. *)
Fixpoint all_digits (s : string) : bool :=
  match s with
  | EmptyString => true
  | String c s' => is_digit c && all_digits s'
  end.

Definition validOptionalPort (port : string) : bool :=
  match port with
  | EmptyString => true
  | String ":" rest => all_digits rest
  | _ => false
  end.

Definition url_splitHostPort (hostport : string) : string * string :=
  let colon := LastIndexByte hostport ":" in
  let '(host, port) :=
    if negb (colon =? -1) && validOptionalPort (slice_from hostport colon)
    then (slice hostport 0 colon, slice_from hostport (colon + 1))
    else (hostport, "") in
  if HasPrefix host "[" && HasSuffix host "]"
  then (slice host 1 (len host - 1), port)
  else (host, port).

Definition Hostname (host : string) : string := fst (url_splitHostPort host).

(** [net/http.Header]: a map from canonical MIME header keys to the list
    of values of that header. *)
Abbreviation Header := (gmap string (list string)).

Module GoHeader.

(** [isTokenTable] of net/textproto: the RFC 7230 token characters. *)
Definition validHeaderFieldByte (c : ascii) : bool :=
  let n := nat_of_ascii c in
  ((48 <=? n) && (n <=? 57))%nat || ((65 <=? n) && (n <=? 90))%nat
  || ((97 <=? n) && (n <=? 122))%nat
  || existsb (Ascii.eqb c) ["!"; "#"; "$"; "%"; "&"; "'"; "*"; "+"; "-"; "."; "^"; "_"; "`"; "|"; "~"]%char.

Definition is_lower (c : ascii) : bool :=
  let n := nat_of_ascii c in (97 <=? n)%nat && (n <=? 122)%nat.
Definition is_upper (c : ascii) : bool :=
  let n := nat_of_ascii c in (65 <=? n)%nat && (n <=? 90)%nat.

(** [c -= toLower] and [c += toLower] with [toLower = 'a' - 'A']. *)
Definition to_upper (c : ascii) : ascii := ascii_of_nat (nat_of_ascii c - 32).
Definition to_lower (c : ascii) : ascii := ascii_of_nat (nat_of_ascii c + 32).

Fixpoint all_valid (s : string) : bool :=
  match s with
  | EmptyString => true
  | String c s' => validHeaderFieldByte c && all_valid s'
  end.

(** The canonicalising loop of [canonicalMIMEHeaderKey]: first letter and
    letters after ['-'] upper case, the others lower case. *)
Fixpoint canon_loop (upper : bool) (s : string) : string :=
  match s with
  | EmptyString => EmptyString
  | String c s' =>
      let c' := if upper && is_lower c then to_upper c
                else if negb upper && is_upper c then to_lower c
                else c in
      String c' (canon_loop (Ascii.eqb c' "-") s')
  end.

(** [textproto.CanonicalMIMEHeaderKey]: keys with a non-token byte are
    returned unchanged. *)
Definition CanonicalMIMEHeaderKey (s : string) : string :=
  if all_valid s then canon_loop true s else s.

(** [Header.Del], [Header.Values], [Header.Get], [Header.Set]. *)
Definition Del (h : Header) (key : string) : Header :=
  delete (CanonicalMIMEHeaderKey key) h.

Definition Values (h : Header) (key : string) : list string :=
  default [] (h !! CanonicalMIMEHeaderKey key).

Definition Get (h : Header) (key : string) : string :=
  match Values h key with
  | v :: _ => v
  | [] => ""
  end.

Definition Set_ (h : Header) (key value : string) : Header :=
  <[CanonicalMIMEHeaderKey key := [value]]> h.

End GoHeader.

(** Go errors: sentinel values, other leaf errors (a [*net.DNSError], an
    [ECONNREFUSED] errno, ...) and wrappers with an [Unwrap] method
    ([*net.OpError], [*url.Error], [fmt.Errorf("%w")]). *)
Inductive sentinel :=
| EOF                      (** [io.EOF] *)
| ContextDeadlineExceeded  (** [context.DeadlineExceeded] *)
| ContextCanceled          (** [context.Canceled] *)
| OsDeadlineExceeded.      (** [os.ErrDeadlineExceeded], "i/o timeout" *)

Definition sentinel_eqb (a b : sentinel) : bool :=
  match a, b with
  | EOF, EOF | ContextDeadlineExceeded, ContextDeadlineExceeded
  | ContextCanceled, ContextCanceled | OsDeadlineExceeded, OsDeadlineExceeded => true
  | _, _ => false
  end.

Inductive goerror :=
| ESentinel (s : sentinel)
| EOther (msg : string)
| EWrap (kind : string) (inner : goerror).

(** [errors.Is(err, target)] for a sentinel [target]: compare, then
    follow [Unwrap]. *)
Fixpoint errors_Is (err : goerror) (target : sentinel) : bool :=
  match err with
  | ESentinel s => sentinel_eqb s target
  | EOther _ => false
  | EWrap _ inner => errors_Is inner target
  end.

(** [errors.Unwrap]. *)
Definition errors_Unwrap (err : goerror) : option goerror :=
  match err with
  | EWrap _ inner => Some inner
  | _ => None
  end.

(** The parts of an incoming [*http.Request] the router and handlers read. *)
Record request := {
  rq_method : string;       (** [rq.Method] *)
  rq_url_host : string;     (** [rq.URL.Host] *)
  rq_request_uri : string;  (** [rq.RequestURI] *)
  rq_header : Header;       (** [rq.Header] *)
  rq_remote_addr : string;  (** [rq.RemoteAddr] *)
}.

Definition MethodConnect : string := "CONNECT".

Module Router.
Section Router.
Variable parseIPv6 : string -> option IP.

Record router := {
    Default : option handler;
    Connect : option handler;
    NotFound : option handler;
    matchers : list Matcher.matcher;
  }.

  (** [Router.init]: fallbacks for the unset slots. *)
Definition init (r : router) : handler * handler * handler :=
    (default HNotFound (Default r),
     default HMethodNotAllowed (Connect r),
     default HNotFound (NotFound r)).

  (** [Router.HandleConnectHost]: append a route. *)
Definition HandleConnectHost (r : router) (host : string) (h : handler) : router :=
    {| Default := Default r; Connect := Connect r; NotFound := NotFound r;
       matchers := matchers r ++ [{| Matcher.tpl := host; Matcher.mhandler := h |}] |}.

  (** The [for i := range r.matchers] loop with its [break]. *)
Fixpoint first_match (ms : list Matcher.matcher) (hostname : string) (dflt : handler) : handler :=
    match ms with
    | [] => dflt
    | m :: ms' =>
        if Matcher.matches parseIPv6 m hostname then Matcher.mhandler m
        else first_match ms' hostname dflt
    end.

  (** [Router.ServeHTTP]: the handler the request is passed to. *)
Definition select (r : router) (rq : request) : handler :=
    let '(dflt, conn, nf) := init r in
    if String.eqb (rq_method rq) MethodConnect then
      first_match (matchers r) (Hostname (rq_url_host rq)) conn
    else if negb (String.eqb (rq_url_host rq) "") then dflt
    else nf.
End Router.
End Router.

(** Status codes written by the package-level fallbacks [router.NotFound]
    ([http.NotFound]) and [router.MethodNotAllowed]. *)
Definition fallback_status (h : handler) : option Z :=
  match h with
  | HNotFound => Some 404
  | HMethodNotAllowed => Some 405
  | HUser _ => None
  end.

(* ------------------------------------------------------------------ *)
(** ** pkg/handlers HTTPHandler (plain HTTP proxying) *)

(** The parts of an upstream [*http.Response] the handler reads. *)
Record response := {
  rs_status : Z;          (** [rs.StatusCode] *)
  rs_content_length : Z;  (** [rs.ContentLength], [-1] when unknown *)
}.

(** What [HTTPHandler.ServeHTTP] answers the client. *)
Inductive reply :=
| ReplyError (code : Z)          (** [s.httpError(rw, code)] *)
| ReplyUpstream (rs : response). (** [s.writeResponse(rw, rs)] *)

Module HTTPHandler.
Section HTTPHandler.
  (** [s.transport().RoundTrip]: the upstream round trip. *)
Variable RoundTrip : request -> response + goerror.

Definition hopHeaders : list string :=
    ["Connection"; "Keep-Alive"; "Proxy-Authenticate"; "Proxy-Authorization";
     "Te"; "Trailer"; "Transfer-Encoding"; "Upgrade"; "Proxy-Connection"].

Definition with_header (rq : request) (h : Header) : request :=
    {| rq_method := rq_method rq; rq_url_host := rq_url_host rq;
       rq_request_uri := rq_request_uri rq; rq_header := h;
       rq_remote_addr := rq_remote_addr rq |}.

  (** [removeHopHeaders] *)
Definition removeHopHeaders (rq : request) : request :=
    with_header rq (fold_left GoHeader.Del hopHeaders (rq_header rq)).

  (** [removeConnectionHeaders]: [for _, name := range rq.Header.Values("connection")]. *)
Definition removeConnectionHeaders (rq : request) : request :=
    with_header rq (fold_left GoHeader.Del (GoHeader.Values (rq_header rq) "connection") (rq_header rq)).

  (** [rq.Clone(ctx)] followed by [rq.RequestURI = ""] and the two
      header passes, in the order of [ServeHTTP]. *)
Definition prepare (rq : request) : request :=
    let rq := {| rq_method := rq_method rq; rq_url_host := rq_url_host rq;
                 rq_request_uri := ""; rq_header := rq_header rq;
                 rq_remote_addr := rq_remote_addr rq |} in
    let rq := removeHopHeaders rq in
    removeConnectionHeaders rq.

  (** [HTTPHandler.ServeHTTP]: the request sent upstream (if any) and the
      reply to the client. *)
Definition ServeHTTP (rq : request) : option request * reply :=
    if String.eqb (rq_url_host rq) "" then (None, ReplyError 400)
    else if String.eqb (rq_method rq) MethodConnect then (None, ReplyError 405)
    else
      let rq' := prepare rq in
      match RoundTrip rq' with
      | inr err =>
          if errors_Is err ContextDeadlineExceeded then (Some rq', ReplyError 504)
          else (Some rq', ReplyError 502)
      | inl rs => (Some rq', ReplyUpstream rs)
      end.
End HTTPHandler.
End HTTPHandler.

(* ------------------------------------------------------------------ *)
(** ** pkg/handlers Tunnel (opaque CONNECT relay) *)

(** One iteration of the [io.Copy] loop: [nr, er := src.Read(buf)], then,
    when [nr > 0], [nw, ew := dst.Write(buf[0:nr])]. A source is the
    script of its reads with the outcome of the matching writes; a script
    that runs out reads as [io.EOF]. *)
Record copy_event := {
  ev_nr : Z;                  (** bytes read *)
  ev_er : option goerror;     (** read error *)
  ev_nw : Z;                  (** bytes written *)
  ev_ew : option goerror;     (** write error *)
}.

Definition ErrShortWrite : goerror := EOther "short write".

Definition is_plain_EOF (e : goerror) : bool :=
  match e with ESentinel EOF => true | _ => false end.

(** The loop body of [io.copyBuffer]: [inl written] to go on, [inr (written, err)]
    after [break]. *)
Definition copy_iter (ev : copy_event) (written : Z) : Z + (Z * option goerror) :=
  let written' := if 0 <? ev_nr ev then (if 0 <? ev_nw ev then written + ev_nw ev else written)
                  else written in
  let write_stop :=
    if 0 <? ev_nr ev then
      match ev_ew ev with
      | Some ew => Some (written', Some ew)
      | None => if negb (ev_nr ev =? ev_nw ev) then Some (written', Some ErrShortWrite) else None
      end
    else None in
  match write_stop with
  | Some r => inr r
  | None =>
      match ev_er ev with
      | Some er => inr (written', if is_plain_EOF er then None else Some er)
      | None => inl written'
      end
  end.

(** [io.Copy(dst, src)]. *)
Fixpoint io_Copy_from (evs : list copy_event) (written : Z) : Z * option goerror :=
  match evs with
  | [] => (written, None)
  | ev :: rest =>
      match copy_iter ev written with
      | inl w => io_Copy_from rest w
      | inr r => r
      end
  end.

Definition io_Copy (evs : list copy_event) : Z * option goerror := io_Copy_from evs 0.

Module Tunnel.

(** [Tunnel.copy]: EOF and deadline-exceeded end a direction without error. *)
Definition copy_result (r : Z * option goerror) : Z * option goerror :=
  let '(n, err) := r in
  match err with
  | Some e =>
      if errors_Is e EOF then (n, None)
      else if errors_Is e OsDeadlineExceeded then (n, None)
      else (n, Some e)
  | None => (n, None)
  end.

Definition copy (evs : list copy_event) : Z * option goerror := copy_result (io_Copy evs).

(** One relay goroutine: copying, or returned from [s.copy]. *)
Inductive pipe :=
| Copying (evs : list copy_event) (written : Z)
| Returned (n : Z) (err : option goerror).

Definition pipe_step (p : pipe) : option pipe :=
  match p with
  | Returned _ _ => None
  | Copying [] w => Some (let '(n, e) := copy_result (w, None) in Returned n e)
  | Copying (ev :: rest) w =>
      match copy_iter ev w with
      | inl w' => Some (Copying rest w')
      | inr r => Some (let '(n, e) := copy_result r in Returned n e)
      end
  end.

(** The relaying phase of [Tunnel.ServeHTTP]: the client->upstream and the
    upstream->client goroutines, interleaved arbitrarily. *)
Record relay := { c2u : pipe; u2c : pipe }.

Inductive relay_step : relay -> relay -> Prop :=
| step_c2u p p' q : pipe_step p = Some p' -> relay_step {| c2u := p; u2c := q |} {| c2u := p'; u2c := q |}
| step_u2c p q q' : pipe_step q = Some q' -> relay_step {| c2u := p; u2c := q |} {| c2u := p; u2c := q' |}.

Inductive relay_steps : relay -> relay -> Prop :=
| steps_refl s : relay_steps s s
| steps_step s1 s2 s3 : relay_step s1 s2 -> relay_steps s2 s3 -> relay_steps s1 s3.

Definition relay_start (client upstream : list copy_event) : relay :=
  {| c2u := Copying client 0; u2c := Copying upstream 0 |}.

(** [wg.Wait()] returns once both goroutines have called [wg.Done()]. *)
Definition wg_done (s : relay) : bool :=
  match c2u s, u2c s with
  | Returned _ _, Returned _ _ => true
  | _, _ => false
  end.

(** [log.WithContentLength(rq, n)] of the upstream->client goroutine. *)
Definition recorded_length (s : relay) : option Z :=
  match u2c s with Returned n _ => Some n | _ => None end.

End Tunnel.

(* ------------------------------------------------------------------ *)
(** ** pkg/issuer SelfSignedCA *)

(** [x509.ExtKeyUsage] values used by the issuer. *)
Inductive ExtKeyUsage := ExtKeyUsageClientAuth | ExtKeyUsageServerAuth.

(** [x509.KeyUsage] bits: [KeyUsageDigitalSignature = 1 << 0],
    [KeyUsageCertSign = 1 << 5]. *)
Definition KeyUsageDigitalSignature : Z := 1.
Definition KeyUsageCertSign : Z := 32.

(** The fields of an [x509.Certificate] template that [Issue] reads or
    writes; times are Unix nanoseconds. *)
Record x509_cert := {
  SerialNumber : Z;
  SubjectCountry : list string;
  SubjectOrganization : list string;
  SubjectCommonName : string;
  NotBefore : Z;
  NotAfter : Z;
  KeyUsage : Z;
  ExtKeyUsages : list ExtKeyUsage;
  DNSNames : list string;
  IPAddresses : list IP;
}.

(** An RSA private key: its modulus size and the randomness it came from. *)
Record rsa_key := { key_bits : Z; key_seed : Z }.

(** [rsa.GenerateKey(random, bits)]: a key whose modulus has [bits] bits. *)
Definition GenerateKey (random : Z) (bits : Z) : rsa_key :=
  {| key_bits := bits; key_seed := random |}.

(** The issued [*tls.Certificate] with its parsed [Leaf]: the signed
    template and the generated key. *)
Record tls_cert := { Leaf : x509_cert; PrivateKey : rsa_key }.

(** [DefaultIssuerTmpl]. *)
Definition DefaultIssuerTmpl : x509_cert :=
  {| SerialNumber := 1; SubjectCountry := ["AQ"]; SubjectOrganization := ["Multiproxy"];
     SubjectCommonName := ""; NotBefore := 0; NotAfter := 0;
     KeyUsage := KeyUsageDigitalSignature; ExtKeyUsages := [ExtKeyUsageServerAuth];
     DNSNames := []; IPAddresses := [] |}.

Definition DefaultIssuerBitSize : Z := 1024.
Definition DefaultIssuerRootBitSize : Z := 2048.

Module SelfSignedCA.

(** The configuration fields of [SelfSignedCA] that bear on issued leaves. *)
Record ca := {
  BitSize : Z;
  RootBitSize : Z;
  Tmpl : option x509_cert;
}.

(** [SelfSignedCA.init]: the defaults of the zero fields. *)
Definition init (c : ca) : ca :=
  {| BitSize := if BitSize c =? 0 then DefaultIssuerBitSize else BitSize c;
     RootBitSize := if RootBitSize c =? 0 then DefaultIssuerRootBitSize else RootBitSize c;
     Tmpl := Some (default DefaultIssuerTmpl (Tmpl c)) |}.

Section Issue.
  (** [t.AddDate(years, months, days)] of package time. *)
Variable AddDate : Z -> Z -> Z -> Z -> Z.

  (** [SelfSignedCA.Issue(cn, dnsnames, ipaddresses)]; [now1] and [now2]
      are the two [time.Now()] readings, [random] the state of [ca.Rand]. *)
Definition Issue (c : ca) (now1 now2 random : Z)
      (cn : string) (dnsnames : list string) (ipaddresses : list IP) : tls_cert :=
    let c := init c in
    let t := default DefaultIssuerTmpl (Tmpl c) in
    let tmpl :=
      {| SerialNumber := SerialNumber t; SubjectCountry := SubjectCountry t;
         SubjectOrganization := SubjectOrganization t;
         SubjectCommonName := cn;
         NotBefore := now1;
         NotAfter := AddDate now2 10 0 0;
         KeyUsage := KeyUsageDigitalSignature;
         ExtKeyUsages := [ExtKeyUsageClientAuth; ExtKeyUsageServerAuth];
         DNSNames := dnsnames;
         IPAddresses := ipaddresses |} in
    let key := GenerateKey random 1024 in
    {| Leaf := tmpl; PrivateKey := key |}.
End Issue.

End SelfSignedCA.

(* ------------------------------------------------------------------ *)
(** ** golang.org/x/net/publicsuffix [EffectiveTLDPlusOne] *)

Fixpoint has_empty_label (s : string) : bool :=
  match s with
  | String "." ((String "." _) as s') => true
  | String _ s' => has_empty_label s'
  | EmptyString => false
  end.

Section PublicSuffix.
  (** [publicsuffix.PublicSuffix]: the table-driven lookup of the public
      suffix list. *)
Variable PublicSuffix : string -> string.

  (** [EffectiveTLDPlusOne]: the result string and the error, [("", err)]
      on failure. *)
Definition EffectiveTLDPlusOne (domain : string) : string * option goerror :=
    if HasPrefix domain "." || HasSuffix domain "." || has_empty_label domain then
      ("", Some (EOther "publicsuffix: empty label in domain"))
    else
      let suffix := PublicSuffix domain in
      if len domain <=? len suffix then
        ("", Some (EOther "publicsuffix: cannot derive eTLD+1 for domain"))
      else
        let i := len domain - len suffix - 1 in
        if negb (match byte_at domain i with Some "."%char => true | _ => false end) then
          ("", Some (EOther "publicsuffix: invalid public suffix for domain"))
        else (slice_from domain (1 + LastIndexByte (slice domain 0 i) "."), None).
End PublicSuffix.

(* ------------------------------------------------------------------ *)
(** ** pkg/handlers MITMHandler *)

Module MITM.
Section MITM.
Variable parseIPv6 : string -> option IP.
Variable PublicSuffix : string -> string.
  (** [net.IP.String]. *)
Variable IP_String : IP -> string.
  (** [s.Issuer.Issue(cn, dnsnames, ipaddresses)]; [None] is an error. *)
Variable Issue : string -> list string -> list IP -> option tls_cert.

  (** Lines 287-297 of [certForRequest]: the arguments of [Issue]. *)
Definition certParams (hostname : string) : string * list string * list IP :=
    let '(tldplus, err) := EffectiveTLDPlusOne PublicSuffix hostname in
    let '(cn, dnsnames) :=
      match err with
      | Some _ => (tldplus, [tldplus; ("." ++ tldplus)%string])
      | None => (hostname, [])
      end in
    match ParseIP parseIPv6 hostname with
    | Some ip => (IP_String ip, dnsnames, [ip])
    | None => (cn, dnsnames, [])
    end.

  (** [certForRequest]: the certificate cache maps a key to its
      [cacheEntry], whose [cert] is [None] until issued. This is the cache
      of the default [CertCacheSize = 0], which [init] turns into
      [int(^uint(0) >> 1)] entries, so nothing is evicted; [main] builds its
      [MITMHandler] with that default. A smaller [CertCacheSize], whose ARC
      cache evicts entries, is not modelled. *)
Definition certForRequest (cache : gmap string (option tls_cert)) (hostname : string)
      : gmap string (option tls_cert) * option tls_cert :=
    let '(cn, dnsnames, ipaddresses) := certParams hostname in
    let entry := match cache !! cn with Some e => e | None => None end in
    let cache := <[cn := entry]> cache in
    match entry with
    | Some cert => (cache, Some cert)
    | None =>
        match Issue cn dnsnames ipaddresses with
        | Some cert => (<[cn := Some cert]> cache, Some cert)
        | None => (cache, None)
        end
    end.
End MITM.

(** Successive [certForRequest] calls on one handler, in the order the
    [certCacheMux] lock serialises them; each call comes with what the
    issuer returns at that moment. *)
Fixpoint certForRequests (parseIPv6 : string -> option IP) (PublicSuffix : string -> string)
    (IP_String : IP -> string) (cache : gmap string (option tls_cert))
    (calls : list ((string -> list string -> list IP -> option tls_cert) * string))
    : gmap string (option tls_cert) :=
  match calls with
  | [] => cache
  | (Issue, hostname) :: rest =>
      certForRequests parseIPv6 PublicSuffix IP_String
        (fst (certForRequest parseIPv6 PublicSuffix IP_String Issue cache hostname)) rest
  end.
End MITM.

(** The proxy context slots written by [log.WithStatusCode] and
    [log.WithContentLength]. *)
Record proxy_ctx := { ctx_status : option Z; ctx_length : option Z }.

Definition empty_ctx : proxy_ctx := {| ctx_status := None; ctx_length := None |}.

(** The byte sequence written on a successful CONNECT. *)
Definition connect_ok : string := "HTTP/1.1 200 OK" ++ String "013" (String "010" (String "013" (String "010" ""))).

(** What happens on the client connection of a MITM conversation after the
    certificate is obtained: the bytes the TLS handshake writes and whether
    it succeeds, the bytes each inner round trip writes on the TLS
    connection (the loop stops at the first error, [io.EOF] included), and
    the bytes of the close-notify alert written by [tlsconn.Close()]. *)
Record tls_session := {
  hs_written : Z;
  hs_ok : bool;
  inner_written : list Z;
  close_written : Z;
}.

(** The observable outcome of [MITMHandler.ServeHTTP]. *)
Record mitm_result := {
  mr_error : option Z;         (** status passed to [s.httpError] *)
  mr_socket_bytes : Z;         (** bytes written on the hijacked client socket *)
  mr_ctx : proxy_ctx;          (** the request's proxy context afterwards *)
}.

Module MITMServe.

(** [MITMHandler.ServeHTTP]; [hijack_ok] is the outcome of [hj.Hijack()],
    [cert] that of [s.certForRequest(rq)]. *)
Definition ServeHTTP (method : string) (hijack_ok : bool) (cert : option tls_cert)
    (sess : tls_session) (ctx : proxy_ctx) : mitm_result :=
  if negb (String.eqb method MethodConnect) then
    {| mr_error := Some 405; mr_socket_bytes := 0; mr_ctx := ctx |}
  else if negb hijack_ok then
    {| mr_error := Some 500; mr_socket_bytes := 0; mr_ctx := ctx |}
  else
    let socket := len connect_ok in
    match cert with
    | None => {| mr_error := Some 500; mr_socket_bytes := socket; mr_ctx := ctx |}
    | Some _ =>
        (* mitmconn.bytesWritten counts the writes of the TLS layer *)
        let counted := hs_written sess in
        let counted :=
          if hs_ok sess then counted + fold_left Z.add (inner_written sess) 0 + close_written sess
          else counted in
        {| mr_error := None; mr_socket_bytes := socket + counted;
           mr_ctx := {| ctx_status := Some 200; ctx_length := Some counted |} |}
    end.

End MITMServe.

(** [mitmResponseWriter] state and the calls an inner handler makes on it. *)
Record mitm_rw := { statusCode : Z; hijacked : bool; body_len : Z }.

Inductive rw_call :=
| CallWriteHeader (code : Z)
| CallWrite (n : Z)
| CallHijack.

Module MITMWriter.

Definition init : mitm_rw := {| statusCode := 0; hijacked := false; body_len := 0 |}.

(** One call; [None] is a panic. *)
Definition step (rw : mitm_rw) (c : rw_call) : option mitm_rw :=
  match c with
  | CallWriteHeader code =>
      if negb (statusCode rw =? 0) then None
      else Some {| statusCode := code; hijacked := hijacked rw; body_len := body_len rw |}
  | CallWrite n => Some {| statusCode := statusCode rw; hijacked := hijacked rw; body_len := body_len rw + n |}
  | CallHijack =>
      if hijacked rw then None
      else Some {| statusCode := statusCode rw; hijacked := true; body_len := body_len rw |}
  end.

Fixpoint run (rw : mitm_rw) (cs : list rw_call) : option mitm_rw :=
  match cs with
  | [] => Some rw
  | c :: cs' => match step rw c with Some rw' => run rw' cs' | None => None end
  end.

(** The [Hijack] calls, and the [WriteHeader] calls with a nonzero code. *)
Definition count_hijack (cs : list rw_call) : nat :=
  List.length (List.filter (fun c => match c with CallHijack => true | _ => false end) cs).

Definition count_status (cs : list rw_call) : nat :=
  List.length (List.filter (fun c => match c with CallWriteHeader code => negb (code =? 0) | _ => false end) cs).

End MITMWriter.

(* ------------------------------------------------------------------ *)
(** ** pkg/middleware/xforwardedfor *)

(** [net.SplitHostPort] (go1.15 net/ipsock.go); [None] is an [*AddrError]. *)
Definition SplitHostPort (hostport : string) : option (string * string) :=
  let i := LastIndexByte hostport ":" in
  if i <? 0 then None
  else
    let bracket :=
      if match byte_at hostport 0 with Some "["%char => true | _ => false end then
        let end_ := IndexByte hostport "]" in
        if end_ <? 0 then None
        else if end_ + 1 =? len hostport then None
        else if end_ + 1 =? i then Some (slice hostport 1 end_, 1, end_ + 1)
        else None
      else
        let host := slice hostport 0 i in
        if 0 <=? IndexByte host ":" then None else Some (host, 0, 0) in
    match bracket with
    | None => None
    | Some (host, j, k) =>
        if 0 <=? IndexByte (slice_from hostport j) "[" then None
        else if 0 <=? IndexByte (slice_from hostport k) "]" then None
        else Some (host, slice_from hostport (i + 1))
    end.

(** [XForwardedFor(next)]: the request passed to [next]; [None] is the
    panic on an invalid remote address. *)
Definition XForwardedFor (rq : request) : option request :=
  match SplitHostPort (rq_remote_addr rq) with
  | None => None
  | Some (host, _) =>
      let orig := GoHeader.Get (rq_header rq) "x-forwarded-for" in
      let v := if String.eqb orig "" then host else (orig ++ ", " ++ host)%string in
      Some {| rq_method := rq_method rq; rq_url_host := rq_url_host rq;
              rq_request_uri := rq_request_uri rq;
              rq_header := GoHeader.Set_ (rq_header rq) "x-forwarded-for" v;
              rq_remote_addr := rq_remote_addr rq |}
  end.

(* ------------------------------------------------------------------ *)
(** ** pkg/middleware/via (Via) *)

Module ViaMW.

(** [via.Middleware(ident)(next)]: the request passed to [next]. *)
Definition Middleware (ident : string) (rq : request) : request :=
  let orig := GoHeader.Get (rq_header rq) "via" in
  let v := ((if String.eqb orig "" then "" else orig ++ ", ") ++ "1.1 " ++ ident)%string in
  {| rq_method := rq_method rq; rq_url_host := rq_url_host rq;
     rq_request_uri := rq_request_uri rq;
     rq_header := GoHeader.Set_ (rq_header rq) "via" v;
     rq_remote_addr := rq_remote_addr rq |}.

End ViaMW.

(* ------------------------------------------------------------------ *)
(** ** Go errors: messages *)

(** [err.Error()] of the sentinels [io.EOF], [context.DeadlineExceeded],
    [context.Canceled] and [os.ErrDeadlineExceeded]. *)
Definition sentinel_Error (s : sentinel) : string :=
  match s with
  | EOF => "EOF"
  | ContextDeadlineExceeded => "context deadline exceeded"
  | ContextCanceled => "context canceled"
  | OsDeadlineExceeded => "i/o timeout"
  end.

(** [err.Error()]. A leaf [EOther msg] has the message [msg]; a wrapper
    has its [kind] prefix, [": "] and the wrapped message, the form of
    [*net.OpError] ("dial tcp 192.0.2.1:443: i/o timeout"),
    [*os.SyscallError] and [fmt.Errorf("...: %w")]; a wrapper with an empty
    prefix ([fmt.Errorf("%w")]) has the wrapped message. *)
Fixpoint Error (e : goerror) : string :=
  match e with
  | ESentinel s => sentinel_Error s
  | EOther msg => msg
  | EWrap kind inner => if String.eqb kind "" then Error inner else (kind ++ ": " ++ Error inner)%string
  end.

(* ------------------------------------------------------------------ *)
(** ** pkg/handlers Tunnel.ServeHTTP *)

(** The observable outcome of [Tunnel.ServeHTTP]. *)
Record tunnel_result := {
  tr_error : option Z;                   (** status passed to [s.httpError] *)
  tr_panic : bool;                       (** [log.Panic] was reached *)
  tr_dial : option (string * option Z);  (** address dialed, with the dial timeout *)
  tr_preamble : bool;                    (** ["HTTP/1.1 200 OK\r\n\r\n"] written *)
  tr_ctx : proxy_ctx;                    (** the proxy context when relaying starts *)
  tr_relay : option Tunnel.relay;        (** the relay of the two goroutines *)
}.

Module TunnelServe.

(** [Tunnel.dialContext]: [context.WithTimeout(ctx, s.DialTimeout)] only
    when [s.DialTimeout > 0]. *)
Definition dial_timeout (DialTimeout : Z) : option Z :=
  if 0 <? DialTimeout then Some DialTimeout else None.

(** [Tunnel.ServeHTTP]: [is_hijacker] tells whether [rw] implements
    [http.Hijacker], [dial] is the error of
    [s.dialContext(rq.Context(), "tcp", rq.RequestURI)] ([None] when it
    connects), [hijack_ok] the outcome of [hj.Hijack()], [client] and
    [upstream] the scripts of the client and upstream connections. *)
Definition ServeHTTP (DialTimeout : Z) (rq : request) (is_hijacker : bool)
    (dial : option goerror) (hijack_ok : bool) (client upstream : list copy_event)
    (ctx : proxy_ctx) : tunnel_result :=
  if negb (String.eqb (rq_method rq) MethodConnect) then
    {| tr_error := Some 405; tr_panic := false; tr_dial := None; tr_preamble := false;
       tr_ctx := ctx; tr_relay := None |}
  else if negb is_hijacker then
    {| tr_error := Some 500; tr_panic := true; tr_dial := None; tr_preamble := false;
       tr_ctx := ctx; tr_relay := None |}
  else
    let d := Some (rq_request_uri rq, dial_timeout DialTimeout) in
    match dial with
    | Some err =>
        let code :=
          match errors_Unwrap err with
          | Some werr => if String.eqb (Error werr) "i/o timeout" then 504 else 502
          | None => 502
          end in
        {| tr_error := Some code; tr_panic := false; tr_dial := d; tr_preamble := false;
           tr_ctx := ctx; tr_relay := None |}
    | None =>
        if negb hijack_ok then
          {| tr_error := Some 500; tr_panic := false; tr_dial := d; tr_preamble := false;
             tr_ctx := ctx; tr_relay := None |}
        else
          {| tr_error := None; tr_panic := false; tr_dial := d; tr_preamble := true;
             tr_ctx := {| ctx_status := Some 200; ctx_length := ctx_length ctx |};
             tr_relay := Some (Tunnel.relay_start client upstream) |}
    end.

End TunnelServe.

(* ------------------------------------------------------------------ *)
(** ** pkg/handlers mitmResponseWriter.Close *)

Module MITMWriterClose.

(** [mitmResponseWriter.Close]: nothing is written once the connection is
    hijacked; otherwise an [http.Response] with
    [StatusCode: rw.statusCode] and [ContentLength: rw.body.Len()]. *)
Definition Close (rw : mitm_rw) : option (Z * Z) :=
  if hijacked rw then None else Some (statusCode rw, body_len rw).

(** The code of the first [WriteHeader] call with a nonzero code, [0] if
    there is none; the bytes passed to [Write]; whether [Hijack] was
    called. *)
Fixpoint status_of (cs : list rw_call) : Z :=
  match cs with
  | [] => 0
  | CallWriteHeader code :: cs' => if code =? 0 then status_of cs' else code
  | _ :: cs' => status_of cs'
  end.

Fixpoint body_of (cs : list rw_call) : Z :=
  match cs with
  | [] => 0
  | CallWrite n :: cs' => n + body_of cs'
  | _ :: cs' => body_of cs'
  end.

Definition has_hijack (cs : list rw_call) : bool :=
  existsb (fun c => match c with CallHijack => true | _ => false end) cs.

End MITMWriterClose.

(* ------------------------------------------------------------------ *)
(** ** cmd (package main): [registerHandler] and the router of [main] *)

(** [strings.Split(s, sep)] for a one-byte separator. *)
Fixpoint Split_aux (sep : ascii) (s : string) (acc : list ascii) : list string :=
  match s with
  | EmptyString => [string_of_list_ascii (rev acc)]
  | String c s' =>
      if Ascii.eqb c sep then string_of_list_ascii (rev acc) :: Split_aux sep s' []
      else Split_aux sep s' (c :: acc)
  end.

Definition Split (s : string) (sep : ascii) : list string := Split_aux sep s [].

(** [asciiSpace] of package strings: ['\t'], ['\n'], ['\v'], ['\f'], ['\r']
    and [' ']. *)
Definition is_ascii_space (c : ascii) : bool :=
  let n := nat_of_ascii c in
  ((9 <=? n) && (n <=? 13))%nat || (n =? 32)%nat.

Definition is_non_ascii (c : ascii) : bool := (128 <=? nat_of_ascii c)%nat.

(** The forward loop of [strings.TrimSpace]: [inl rest] when it stops at
    [rest], which is empty or starts with an ASCII non-space byte; [inr rest]
    when it meets a non-ASCII byte at the start of [rest]. *)
Fixpoint trim_left (s : string) : string + string :=
  match s with
  | EmptyString => inl EmptyString
  | String c s' =>
      if is_non_ascii c then inr s
      else if is_ascii_space c then trim_left s'
      else inl s
  end.

(** The backward loop, on the bytes in reverse order. *)
Fixpoint trim_right_rev (r : list ascii) : list ascii + list ascii :=
  match r with
  | [] => inl []
  | c :: r' =>
      if is_non_ascii c then inr r
      else if is_ascii_space c then trim_right_rev r'
      else inl r
  end.

Section Main.
  (** [strings.TrimFunc(s, unicode.IsSpace)], the fallback of
      [strings.TrimSpace] once a non-ASCII byte is met. *)
Variable TrimFuncIsSpace : string -> string.

  (** [strings.TrimSpace]. *)
Definition TrimSpace (s : string) : string :=
    match trim_left s with
    | inr rest => TrimFuncIsSpace rest
    | inl rest =>
        match trim_right_rev (rev (list_ascii_of_string rest)) with
        | inl r => string_of_list_ascii (rev r)
        | inr r => TrimFuncIsSpace (string_of_list_ascii (rev r))
        end
    end.

  (** The loop of [registerHandler] over the names; the error stops it. *)
Fixpoint register_loop (mux : Router.router) (h : handler) (names : list string)
      : Router.router * option string :=
    match names with
    | [] => (mux, None)
    | name :: rest =>
        let hostname := TrimSpace name in
        if negb (String.eqb hostname "*") then
          register_loop (Router.HandleConnectHost mux hostname h) h rest
        else
          match Router.Connect mux with
          | Some _ => (mux, Some "multiple fallback handlers specified")
          | None =>
              register_loop {| Router.Default := Router.Default mux; Router.Connect := Some h;
                               Router.NotFound := Router.NotFound mux;
                               Router.matchers := Router.matchers mux |} h rest
          end
    end.

  (** [registerHandler(mux, handler, hostnames)]. *)
Definition registerHandler (mux : Router.router) (h : handler) (hostnames : string)
      : Router.router * option string :=
    register_loop mux h (Split hostnames ",").

  (** The router [main] serves from the [-mitm] and [-tunnel] flags; the
      handler chains are named [http], [mitm] and [tunnel]. [None] is
      [l.Fatal] on a [registerHandler] error. [init] turns two empty flags
      into [-tunnel "*"]. *)
Definition main_router (optMitmHostnames optTunnelHostnames : string) : option Router.router :=
    let optTunnelHostnames :=
      if String.eqb optMitmHostnames "" && String.eqb optTunnelHostnames ""
      then "*" else optTunnelHostnames in
    let mux := {| Router.Default := Some (HUser "http"); Router.Connect := None;
                  Router.NotFound := None; Router.matchers := [] |} in
    match registerHandler mux (HUser "mitm") optMitmHostnames with
    | (_, Some _) => None
    | (mux, None) =>
        match registerHandler mux (HUser "tunnel") optTunnelHostnames with
        | (_, Some _) => None
        | (mux, None) => Some mux
        end
    end.
End Main.

(* ------------------------------------------------------------------ *)
(** ** Concrete inputs *)

Module Samples.

(** A GET through the proxy whose [Connection] header lists [X-Foo]. *)
Definition conn_header : Header :=
  <["Connection" := ["X-Foo"]]> (<["X-Foo" := ["bar"]]> ∅).

Definition get_request : request :=
  {| rq_method := "GET"; rq_url_host := "example.com";
     rq_request_uri := "http://example.com/"; rq_header := conn_header;
     rq_remote_addr := "127.0.0.1:50000" |}.

Definition ok_response : response := {| rs_status := 200; rs_content_length := 0 |}.

(** Tunnel relay: the client sends 5 then 3 bytes and its read hits the
    connection deadline; the upstream sends 4 bytes and its connection is
    reset. *)
Definition ev (nr : Z) (er : option goerror) : copy_event :=
  {| ev_nr := nr; ev_er := er; ev_nw := nr; ev_ew := None |}.

Definition read_timeout : goerror := EWrap "read" (ESentinel OsDeadlineExceeded).
Definition conn_reset : goerror := EWrap "read" (EOther "connection reset by peer").

Definition client_reads : list copy_event := [ev 5 None; ev 3 (Some read_timeout)].
Definition upstream_reads : list copy_event := [ev 4 None; ev 0 (Some conn_reset)].

(** The public suffix list's implicit ["*"] rule: the last label. It
    gives the listed suffix for names under [com] and for [localhost]. *)
Definition last_label_suffix (domain : string) : string :=
  slice_from domain (1 + LastIndexByte domain ".").

(** [net.IP.String] for IPv4 addresses, in dotted decimal. *)
Definition ipv4_string (ip : IP) : string :=
  String.concat "." (List.map (fun b => NilEmpty.string_of_uint (Nat.to_uint (Z.to_nat b)))
                      (List.skipn 12 ip)).

(** A clock for running the issuer: [AddDate t y 0 0] adds [y] years of
    365.25 days. *)
Definition add_date (t y m d : Z) : Z := t + y * 31557600 * 1000000000.

(** The default issuer ([SelfSignedCA{}]) at a fixed time and seed. *)
Definition default_ca : SelfSignedCA.ca := {| SelfSignedCA.BitSize := 0; SelfSignedCA.RootBitSize := 0; SelfSignedCA.Tmpl := None |}.

Definition now : Z := 1700000000 * 1000000000.

Definition issue_default (cn : string) (dns : list string) (ips : list IP) : option tls_cert :=
  Some (SelfSignedCA.Issue add_date default_ca now now 42 cn dns ips).

(** [SelfSignedCA{BitSize: 2048}]. *)
Definition ca_2048 : SelfSignedCA.ca := {| SelfSignedCA.BitSize := 2048; SelfSignedCA.RootBitSize := 0; SelfSignedCA.Tmpl := None |}.

(** A leaf of the default issuer, and a handshake that writes an alert of
    7 bytes and fails. *)
Definition sample_cert : tls_cert :=
  SelfSignedCA.Issue add_date default_ca now now 42 "example.com" [] [].

Definition failed_handshake : tls_session :=
  {| hs_written := 7; hs_ok := false; inner_written := []; close_written := 0 |}.

(** Requests through the X-Forwarded-For middleware. *)
Definition xff_request (h : Header) (remote : string) : request :=
  {| rq_method := "GET"; rq_url_host := "example.com"; rq_request_uri := "http://example.com/";
     rq_header := h; rq_remote_addr := remote |}.

Definition xff_empty : Header := <["X-Forwarded-For" := [""]]> ∅.
Definition xff_one : Header := <["X-Forwarded-For" := ["192.0.2.1"]]> ∅.

(** The relay once both directions have returned. *)
Definition relay_end : Tunnel.relay :=
  {| Tunnel.c2u := Tunnel.Returned 8 None; Tunnel.u2c := Tunnel.Returned 4 (Some conn_reset) |}.

End Samples.

(** Further concrete inputs. *)
Module MoreSamples.
Import Samples.

(** The leaf the default issuer gives for the parameters of [localhost]. *)
Definition localhost_cert : tls_cert :=
  SelfSignedCA.Issue add_date default_ca now now 42 "" [""; "."] [].

(** A CONNECT request for [authority]. *)
Definition connect_request (authority : string) : request :=
  {| rq_method := MethodConnect; rq_url_host := authority; rq_request_uri := authority;
     rq_header := ∅; rq_remote_addr := "127.0.0.1:50000" |}.

(** The error of a [net.Dialer] whose context deadline passes: a
    [*net.OpError] around the "i/o timeout" error. *)
Definition dial_timeout_error : goerror := EWrap "dial tcp 192.0.2.1:443" (EOther "i/o timeout").

(** Two reads of 4 and 6 bytes, written in full, then end of stream. *)
Definition upstream_full : list copy_event := [ev 4 None; ev 6 None].

End MoreSamples.

(* ================================================================== *)
(** * Proofs *)

(** ** Strings *)

Module StringFacts.

Lemma append_nil_l (s : string) : ("" ++ s)%string = s.
Proof. reflexivity. Qed.

Lemma append_cons (a : ascii) (s t : string) :
  (String a s ++ t)%string = String a (s ++ t)%string.
Proof. reflexivity. Qed.

Lemma length_app (s t : string) :
  String.length (s ++ t) = (String.length s + String.length t)%nat.
Proof. induction s as [|a s IH]; simpl; [reflexivity | now rewrite IH]. Qed.

Lemma substring_app_r (p t : string) (k : nat) :
  String.substring (String.length p) k (p ++ t) = String.substring 0 k t.
Proof. induction p as [|a p IH]; simpl; [reflexivity | exact IH]. Qed.

Lemma substring_full (t : string) : String.substring 0 (String.length t) t = t.
Proof. induction t as [|a t IH]; simpl; [reflexivity | now rewrite IH]. Qed.

Lemma substring_zero (n : nat) (s : string) : String.substring n 0 s = EmptyString.
Proof.
  revert n; induction s as [|a s IH]; intros [|n]; simpl; auto.
Qed.

Lemma substring_split (s : string) (k : nat) :
  (k <= String.length s)%nat ->
  s = (String.substring 0 k s ++ String.substring k (String.length s - k) s)%string.
Proof.
  revert k; induction s as [|a s IH]; intros [|k] Hk; simpl in *.
  - reflexivity.
  - lia.
  - now rewrite substring_full.
  - rewrite (IH k) at 1 by lia. reflexivity.
Qed.

Lemma HasSuffix_spec (s t : string) :
  HasSuffix s t = true <-> exists p, s = (p ++ t)%string.
Proof.
  unfold HasSuffix. rewrite andb_true_iff, Nat.leb_le, String.eqb_eq. split.
  - intros [Hle Heq].
    exists (String.substring 0 (String.length s - String.length t) s).
    rewrite (substring_split s (String.length s - String.length t)) at 1 by lia.
    f_equal. replace (String.length s - (String.length s - String.length t))%nat
      with (String.length t) by lia. exact Heq.
  - intros [p ->]. rewrite length_app. split; [lia|].
    replace (String.length p + String.length t - String.length t)%nat
      with (String.length p) by lia.
    rewrite substring_app_r. apply substring_full.
Qed.

Lemma app_inv_tail_length (p1 p2 t1 t2 : string) :
  String.length t1 = String.length t2 ->
  (p1 ++ t1)%string = (p2 ++ t2)%string -> p1 = p2 /\ t1 = t2.
Proof.
  intros Hl Heq.
  assert (Hp : String.length p1 = String.length p2).
  { apply (f_equal String.length) in Heq. rewrite !length_app in Heq. lia. }
  revert p2 Hp Heq; induction p1 as [|a p1 IH]; intros [|b p2] Hp Heq;
    simpl in *; try discriminate.
  - auto.
  - injection Heq as -> Heq. injection Hp as Hp.
    destruct (IH p2 Hp Heq) as [-> ->]. auto.
Qed.

End StringFacts.

(** ** Host matcher (pkg/router/matcher.go) *)

Module MatcherFacts.
Import StringFacts.

Lemma ParseIP_leading_dot (parseIPv6 : string -> option IP) (X : string) :
  ParseIP parseIPv6 (String "." X) = None.
Proof. reflexivity. Qed.

(** C4: a template [.X] is a suffix pattern; it matches exactly [X] and
    the hosts ending in [.X]. *)
Theorem suffix_pattern_matches_iff :
  (forall (parseIPv6 : string -> option IP) (X H : string) (h : handler),
     Matcher.matches parseIPv6 {| Matcher.tpl := String "." X; Matcher.mhandler := h |} H = true
     <-> H = X \/ exists p, H = (p ++ String "." X)%string)
  /\ (forall (parseIPv6 : string -> option IP) (h : handler),
     let m := {| Matcher.tpl := ".example.com"; Matcher.mhandler := h |} in
     Matcher.matches parseIPv6 m "example.com" = true
     /\ Matcher.matches parseIPv6 m "www.example.com" = true
     /\ Matcher.matches parseIPv6 m "example.net" = false).
Proof.
  split; [|intros; repeat split; reflexivity].
  intros parseIPv6 X H h.
  unfold Matcher.matches, Matcher.isIP. simpl Matcher.tpl.
  rewrite ParseIP_leading_dot.
  assert (Hs : Matcher.isSuffix {| Matcher.tpl := String "." X; Matcher.mhandler := h |} = true).
  { unfold Matcher.isSuffix, HasPrefix; simpl. now rewrite substring_zero. }
  rewrite Hs. unfold Matcher.matchesSuffix. simpl Matcher.tpl. unfold len.
  destruct (Z.eqb_spec (Z.of_nat (String.length H))
              (Z.of_nat (String.length (String "." X)) - 1)) as [Hl|Hl];
    simpl String.length in Hl.
  - assert (HlX : String.length H = String.length X) by lia.
    rewrite HasSuffix_spec. split.
    + intros [p Hp]. left.
      destruct p as [|c p].
      * rewrite append_nil_l in Hp. subst H. simpl in HlX. lia.
      * rewrite append_cons in Hp. injection Hp as _ Hp.
        assert (Hp0 : String.length p = 0%nat).
        { apply (f_equal String.length) in Hp. rewrite length_app in Hp. lia. }
        destruct p; [|discriminate]. rewrite append_nil_l in Hp. auto.
    + intros [->|[p ->]].
      * exists (String "." EmptyString). reflexivity.
      * rewrite length_app in HlX. simpl in HlX. lia.
  - rewrite HasSuffix_spec. split.
    + intros Hx. right. exact Hx.
    + intros [->|Hx]; [lia | exact Hx].
Qed.

End MatcherFacts.

(** ** Router (pkg/router/router.go) *)

Module RouterFacts.

Lemma first_match_find (parseIPv6 : string -> option IP) ms hostname dflt :
  Router.first_match parseIPv6 ms hostname dflt =
  match List.find (fun m => Matcher.matches parseIPv6 m hostname) ms with
  | Some m => Matcher.mhandler m
  | None => dflt
  end.
Proof.
  induction ms as [|m ms IH]; simpl; [reflexivity|].
  destruct (Matcher.matches parseIPv6 m hostname); [reflexivity | exact IH].
Qed.

Lemma HandleConnectHost_matchers r host h :
  Router.matchers (Router.HandleConnectHost r host h) =
  Router.matchers r ++ [{| Matcher.tpl := host; Matcher.mhandler := h |}].
Proof. reflexivity. Qed.

(** C5: a CONNECT request goes to the handler of the first route, in
    insertion order, whose pattern matches the URL hostname, and to the
    CONNECT fallback otherwise; a non-CONNECT request goes to [Default]
    when the URL has a host and to [NotFound] when it has none; the unset
    slots fall back to [router.NotFound] (404), [router.MethodNotAllowed]
    (405) and [router.NotFound] (404). *)
Theorem router_dispatch (parseIPv6 : string -> option IP) (r : Router.router) (rq : request) :
  Router.select parseIPv6 r rq =
    (if String.eqb (rq_method rq) MethodConnect then
       match List.find (fun m => Matcher.matches parseIPv6 m (Hostname (rq_url_host rq)))
               (Router.matchers r) with
       | Some m => Matcher.mhandler m
       | None => match Router.Connect r with Some h => h | None => HMethodNotAllowed end
       end
     else if String.eqb (rq_url_host rq) "" then
       match Router.NotFound r with Some h => h | None => HNotFound end
     else match Router.Default r with Some h => h | None => HNotFound end)
  /\ fallback_status HNotFound = Some 404
  /\ fallback_status HMethodNotAllowed = Some 405.
Proof.
  split; [|split; reflexivity].
  unfold Router.select, Router.init. simpl.
  destruct (String.eqb (rq_method rq) MethodConnect).
  - rewrite first_match_find. destruct (Router.Connect r); reflexivity.
  - destruct (String.eqb (rq_url_host rq) ""); simpl.
    + destruct (Router.NotFound r); reflexivity.
    + destruct (Router.Default r); reflexivity.
Qed.

End RouterFacts.

(** ** Plain-HTTP handler *)

Module HTTPHandlerFacts.

Lemma fold_Del_None (l : list string) (h : Header) (k : string) :
  h !! k = None -> fold_left GoHeader.Del l h !! k = None.
Proof.
  revert h; induction l as [|x l IH]; intros h Hk; simpl; [exact Hk|].
  apply IH. unfold GoHeader.Del. rewrite lookup_delete.
  destruct (decide _); [reflexivity | exact Hk].
Qed.

Lemma fold_Del_in (l : list string) (h : Header) (x : string) :
  In x l -> fold_left GoHeader.Del l h !! GoHeader.CanonicalMIMEHeaderKey x = None.
Proof.
  revert h; induction l as [|y l IH]; intros h Hin; simpl in *; [contradiction|].
  destruct Hin as [->|Hin].
  - apply fold_Del_None. unfold GoHeader.Del. apply lookup_delete_eq.
  - apply IH. exact Hin.
Qed.

(** The [Connection] header is gone once the hop-by-hop pass has run, so
    the connection pass that follows it never deletes anything. *)
Lemma removeConnectionHeaders_after_hop (rq : request) :
  HTTPHandler.removeConnectionHeaders (HTTPHandler.removeHopHeaders rq)
  = HTTPHandler.removeHopHeaders rq.
Proof.
  unfold HTTPHandler.removeConnectionHeaders, GoHeader.Values.
  assert (Hc : rq_header (HTTPHandler.removeHopHeaders rq) !!
                 GoHeader.CanonicalMIMEHeaderKey "connection" = None).
  { change (GoHeader.CanonicalMIMEHeaderKey "connection")
      with (GoHeader.CanonicalMIMEHeaderKey "Connection").
    apply fold_Del_in. simpl. auto. }
  rewrite Hc. reflexivity.
Qed.

(** On a non-CONNECT request with a host, an upstream error that is
    [context.DeadlineExceeded] (possibly wrapped) gives 504, any other
    error 502. *)
Theorem upstream_error_status (RoundTrip : request -> response + goerror)
    (rq : request) (err : goerror) :
  rq_url_host rq <> "" -> rq_method rq <> MethodConnect ->
  RoundTrip (HTTPHandler.prepare rq) = inr err ->
  snd (HTTPHandler.ServeHTTP RoundTrip rq)
  = ReplyError (if errors_Is err ContextDeadlineExceeded then 504 else 502).
Proof.
  intros Hhost Hm Hrt. unfold HTTPHandler.ServeHTTP.
  destruct (String.eqb_spec (rq_url_host rq) "") as [E|_]; [contradiction|].
  destruct (String.eqb_spec (rq_method rq) MethodConnect) as [E|_]; [contradiction|].
  rewrite Hrt. destruct (errors_Is err ContextDeadlineExceeded); reflexivity.
Qed.

(** An error chain ends in one leaf, so an error that is
    [os.ErrDeadlineExceeded] is not [context.DeadlineExceeded]. *)
Lemma errors_Is_os_deadline (err : goerror) :
  errors_Is err OsDeadlineExceeded = true -> errors_Is err ContextDeadlineExceeded = false.
Proof.
  induction err as [[]|msg|k inner IH]; simpl; try discriminate; auto.
Qed.

(** C2 (code bug): on a non-CONNECT request with a host, only an upstream
    error that is [context.DeadlineExceeded] gives 504. The other
    deadline-exceeded errors give 502 Bad Gateway: an [os.ErrDeadlineExceeded]
    error, and the "i/o timeout" [*net.OpError] of a dial whose deadline
    passed (which [Tunnel.ServeHTTP] answers with 504). *)
Theorem upstream_deadline_bad_gateway (RoundTrip : request -> response + goerror)
    (rq : request) (err : goerror) :
  rq_url_host rq <> "" -> rq_method rq <> MethodConnect ->
  RoundTrip (HTTPHandler.prepare rq) = inr err ->
  snd (HTTPHandler.ServeHTTP RoundTrip rq)
    = ReplyError (if errors_Is err ContextDeadlineExceeded then 504 else 502)
  /\ (errors_Is err OsDeadlineExceeded = true ->
      snd (HTTPHandler.ServeHTTP RoundTrip rq) = ReplyError 502)
  /\ (forall op, err = EWrap op (EOther "i/o timeout") ->
      snd (HTTPHandler.ServeHTTP RoundTrip rq) = ReplyError 502).
Proof.
  intros Hhost Hm Hrt.
  pose proof (upstream_error_status RoundTrip rq err Hhost Hm Hrt) as H.
  split; [exact H | split].
  - intros Hos. rewrite H, (errors_Is_os_deadline err Hos). reflexivity.
  - intros op ->. rewrite H. reflexivity.
Qed.

Lemma upstream_deadline_bad_gateway_witness :
  snd (HTTPHandler.ServeHTTP (fun _ => inr MoreSamples.dial_timeout_error) Samples.get_request)
    = ReplyError 502
  /\ snd (HTTPHandler.ServeHTTP (fun _ => inr (EWrap "read tcp" (ESentinel OsDeadlineExceeded)))
         Samples.get_request) = ReplyError 502
  /\ snd (HTTPHandler.ServeHTTP (fun _ => inr (EWrap "net/http" (ESentinel ContextDeadlineExceeded)))
         Samples.get_request) = ReplyError 504.
Proof.
  split; [|split].
  - destruct (upstream_deadline_bad_gateway (fun _ => inr MoreSamples.dial_timeout_error)
                Samples.get_request MoreSamples.dial_timeout_error) as (_ & _ & H);
      [discriminate | discriminate | reflexivity |].
    exact (H "dial tcp 192.0.2.1:443" eq_refl).
  - destruct (upstream_deadline_bad_gateway (fun _ => inr (EWrap "read tcp" (ESentinel OsDeadlineExceeded)))
                Samples.get_request (EWrap "read tcp" (ESentinel OsDeadlineExceeded)))
      as (_ & H & _); [discriminate | discriminate | reflexivity |].
    exact (H eq_refl).
  - destruct (upstream_deadline_bad_gateway
                (fun _ => inr (EWrap "net/http" (ESentinel ContextDeadlineExceeded)))
                Samples.get_request (EWrap "net/http" (ESentinel ContextDeadlineExceeded)))
      as (H & _); [discriminate | discriminate | reflexivity |].
    exact H.
Defined.

(** C3 (code evaluated): the request of [Samples.get_request], whose
    [Connection] header lists [X-Foo], reaches the upstream transport
    with its [X-Foo] header still present. *)
Theorem connection_listed_header_forwarded :
  match fst (HTTPHandler.ServeHTTP (fun _ => inl Samples.ok_response) Samples.get_request) with
  | Some up => rq_header up !! "X-Foo" = Some ["bar"]
  | None => False
  end.
Proof. vm_compute. reflexivity. Qed.

End HTTPHandlerFacts.

(** ** Tunnel relay *)

Module TunnelFacts.
Import Tunnel.

(** The result a pipe returns with, whatever the steps still to come. *)
Definition pipe_final (p : pipe) : Z * option goerror :=
  match p with
  | Copying evs w => copy_result (io_Copy_from evs w)
  | Returned n e => (n, e)
  end.

Lemma copy_result_idem (r : Z * option goerror) : copy_result (copy_result r) = copy_result r.
Proof.
  destruct r as [n [e|]]; simpl; [|reflexivity].
  destruct (errors_Is e EOF) eqn:E1; [reflexivity|].
  destruct (errors_Is e OsDeadlineExceeded) eqn:E2; [reflexivity|].
  simpl. now rewrite E1, E2.
Qed.

Lemma pipe_step_final (p p' : pipe) :
  pipe_step p = Some p' -> pipe_final p' = pipe_final p.
Proof.
  destruct p as [[|ev rest] w|n e]; simpl; intros H; try discriminate.
  - injection H as <-. reflexivity.
  - destruct (copy_iter ev w) as [w'|r] eqn:E; injection H as <-; [reflexivity|].
    destruct (copy_result r) as [n e] eqn:Ec. simpl. rewrite <- Ec. reflexivity.
Qed.

Lemma pipe_step_None (p : pipe) :
  pipe_step p = None <-> exists n e, p = Returned n e.
Proof.
  split.
  - destruct p as [[|ev rest] w|n e]; simpl; intros H.
    + discriminate.
    + destruct (copy_iter ev w); discriminate.
    + eauto.
  - intros (n & e & ->). reflexivity.
Qed.

Lemma relay_steps_pipe_final (s1 s2 : relay) :
  relay_steps s1 s2 ->
  pipe_final (c2u s2) = pipe_final (c2u s1) /\ pipe_final (u2c s2) = pipe_final (u2c s1).
Proof.
  induction 1 as [s|s1 s2 s3 Hst _ IH]; [split; reflexivity|].
  destruct IH as [IH1 IH2]. rewrite IH1, IH2.
  destruct Hst as [p p' q Hp|p q q' Hq]; simpl.
  - now rewrite (pipe_step_final _ _ Hp).
  - now rewrite (pipe_step_final _ _ Hq).
Qed.

Lemma relay_steps_final (client upstream : list copy_event) (s : relay) :
  relay_steps (relay_start client upstream) s ->
  pipe_final (c2u s) = copy client /\ pipe_final (u2c s) = copy upstream.
Proof. intros Hs. apply relay_steps_pipe_final in Hs. exact Hs. Qed.

Lemma wg_done_iff_stuck (s : relay) :
  wg_done s = true <-> forall s', ~ relay_step s s'.
Proof.
  destruct s as [p q]. unfold wg_done; simpl. split.
  - intros Hd s' Hst. inversion Hst as [p0 p' q0 Hp|p0 q0 q' Hq]; subst.
    + destruct p; [discriminate|]. discriminate.
    + destruct p; [discriminate|]. destruct q; [discriminate|]. discriminate.
  - intros Hstuck.
    destruct (pipe_step p) as [p'|] eqn:Ep.
    { exfalso. apply (Hstuck {| c2u := p'; u2c := q |}). now constructor. }
    destruct (pipe_step q) as [q'|] eqn:Eq.
    { exfalso. apply (Hstuck {| c2u := p; u2c := q' |}). now constructor. }
    apply pipe_step_None in Ep as (n1 & e1 & ->).
    apply pipe_step_None in Eq as (n2 & e2 & ->). reflexivity.
Qed.

Lemma pipe_step_Copying (evs : list copy_event) (w : Z) :
  exists p', pipe_step (Copying evs w) = Some p'.
Proof.
  destruct (pipe_step (Copying evs w)) as [p'|] eqn:E; [eauto|].
  apply pipe_step_None in E as (n & e & ?). discriminate.
Qed.

Lemma relay_progress (s : relay) : wg_done s = false -> exists s', relay_step s s'.
Proof.
  destruct s as [p q]. unfold wg_done; simpl. intros Hd.
  destruct p as [evs w|n e].
  - destruct (pipe_step_Copying evs w) as [p' Hp].
    exists {| c2u := p'; u2c := q |}. apply step_c2u. exact Hp.
  - destruct q as [evs w|n' e']; [|discriminate].
    destruct (pipe_step_Copying evs w) as [q' Hq].
    exists {| c2u := Returned n e; u2c := q' |}. apply step_u2c. exact Hq.
Qed.

(** C6: [Tunnel.copy] turns a copy ended by [io.EOF] or by a
    deadline-exceeded error into a normal return with the byte count and
    returns any other error; the two relay directions run independently,
    the relay can go on until both have returned, and when both have
    returned each carries the result of its own copy. *)
Theorem tunnel_copy_termination :
  (forall evs : list copy_event,
     match snd (io_Copy evs) with
     | None => True
     | Some e => errors_Is e EOF = true \/ errors_Is e OsDeadlineExceeded = true
     end ->
     Tunnel.copy evs = (fst (io_Copy evs), None))
  /\ (forall (evs : list copy_event) (e : goerror),
     snd (io_Copy evs) = Some e -> errors_Is e EOF = false ->
     errors_Is e OsDeadlineExceeded = false ->
     Tunnel.copy evs = (fst (io_Copy evs), Some e))
  /\ (forall (client upstream : list copy_event) (s : relay),
     relay_steps (relay_start client upstream) s ->
     (wg_done s = false -> exists s', relay_step s s')
     /\ (wg_done s = true ->
         c2u s = Returned (fst (Tunnel.copy client)) (snd (Tunnel.copy client))
         /\ u2c s = Returned (fst (Tunnel.copy upstream)) (snd (Tunnel.copy upstream)))).
Proof.
  split; [|split].
  - intros evs H. unfold Tunnel.copy, copy_result.
    destruct (io_Copy evs) as [n [e|]]; simpl in *; [|reflexivity].
    destruct H as [H|H]; rewrite H; [reflexivity|].
    destruct (errors_Is e EOF); reflexivity.
  - intros evs e H1 H2 H3. unfold Tunnel.copy, copy_result.
    destruct (io_Copy evs) as [n err]; simpl in *. subst err.
    now rewrite H2, H3.
  - intros client upstream s Hs.
    destruct (relay_steps_final _ _ _ Hs) as [Hc Hu]. split.
    + apply relay_progress.
    + intros Hd. destruct s as [p q]. unfold wg_done in Hd; simpl in *.
      destruct p as [|n1 e1]; [discriminate|]. destruct q as [|n2 e2]; [discriminate|].
      simpl in Hc, Hu. rewrite <- Hc, <- Hu. split; reflexivity.
Qed.

End TunnelFacts.

Module TunnelWitness.
Import Tunnel TunnelFacts.

Lemma relay_end_reachable :
  relay_steps (relay_start Samples.client_reads Samples.upstream_reads) Samples.relay_end.
Proof.
  eapply steps_step; [apply step_u2c; vm_compute; reflexivity|].
  eapply steps_step; [apply step_u2c; vm_compute; reflexivity|].
  eapply steps_step; [apply step_c2u; vm_compute; reflexivity|].
  eapply steps_step; [apply step_c2u; vm_compute; reflexivity|].
  apply steps_refl.
Qed.

Lemma tunnel_copy_termination_witness :
  Tunnel.copy Samples.client_reads = (8, None)
  /\ Tunnel.copy Samples.upstream_reads = (4, Some Samples.conn_reset)
  /\ c2u Samples.relay_end = Returned (fst (Tunnel.copy Samples.client_reads)) (snd (Tunnel.copy Samples.client_reads))
  /\ u2c Samples.relay_end = Returned (fst (Tunnel.copy Samples.upstream_reads)) (snd (Tunnel.copy Samples.upstream_reads)).
Proof.
  destruct tunnel_copy_termination as [H1 [H2 H3]].
  split; [|split].
  - rewrite (H1 Samples.client_reads); [reflexivity|]. vm_compute. right. reflexivity.
  - rewrite (H2 Samples.upstream_reads Samples.conn_reset);
      [reflexivity | vm_compute; reflexivity | vm_compute; reflexivity | vm_compute; reflexivity].
  - destruct (H3 _ _ Samples.relay_end relay_end_reachable) as [_ Hend].
    apply Hend. reflexivity.
Defined.

End TunnelWitness.

(** ** Certificates: issuance and the MITM fingerprint *)

Module CertFacts.

(** For a host that is not an IP literal, [certForRequest] passes the host
    itself and no DNS names to [Issue] when the eTLD+1 is found, and the
    empty eTLD+1 result with [[""; "."]] when it is not. *)
Lemma certParams_non_ip (parseIPv6 : string -> option IP) (PublicSuffix : string -> string)
    (IP_String : IP -> string) (hostname : string) :
  ParseIP parseIPv6 hostname = None ->
  MITM.certParams parseIPv6 PublicSuffix IP_String hostname
  = match snd (EffectiveTLDPlusOne PublicSuffix hostname) with
    | None => (hostname, [], [])
    | Some _ => (fst (EffectiveTLDPlusOne PublicSuffix hostname),
                 [fst (EffectiveTLDPlusOne PublicSuffix hostname);
                  ("." ++ fst (EffectiveTLDPlusOne PublicSuffix hostname))%string], [])
    end.
Proof.
  intros Hip. unfold MITM.certParams.
  destruct (EffectiveTLDPlusOne PublicSuffix hostname) as [t [e|]]; simpl;
    rewrite Hip; reflexivity.
Qed.

(** C1 (code evaluated): for [www.example.com], whose eTLD+1 is
    [example.com], the default issuer reached through [certForRequest] on
    an empty cache issues a leaf with common name [www.example.com] and no
    DNS names; for [localhost], whose eTLD+1 cannot be derived, the
    arguments are [""] and [[""; "."]]. *)
Theorem cert_for_request_etld_inverted :
  EffectiveTLDPlusOne Samples.last_label_suffix "www.example.com" = ("example.com", None)
  /\ match snd (MITM.certForRequest (fun _ => None) Samples.last_label_suffix Samples.ipv4_string
                 Samples.issue_default ∅ "www.example.com") with
     | Some c => SubjectCommonName (Leaf c) = "www.example.com" /\ DNSNames (Leaf c) = []
     | None => False
     end
  /\ snd (EffectiveTLDPlusOne Samples.last_label_suffix "localhost") <> None
  /\ MITM.certParams (fun _ => None) Samples.last_label_suffix Samples.ipv4_string "localhost"
     = ("", [""; "."], []).
Proof.
  split; [vm_compute; reflexivity|].
  split; [vm_compute; split; reflexivity|].
  split; [vm_compute; discriminate|].
  vm_compute. reflexivity.
Qed.

(** C7 (code evaluated): every leaf has the requested common name and SAN
    lists, [NotBefore] at the first clock reading, [NotAfter] ten years
    after the second, the digital-signature key usage, client and server
    authentication, and a 1024-bit key; with [BitSize = 2048] configured
    the key still has 1024 bits. *)
Theorem issue_key_size_ignores_BitSize :
  (forall (AddDate : Z -> Z -> Z -> Z -> Z) (c : SelfSignedCA.ca) (now1 now2 random : Z)
          (cn : string) (dnsnames : list string) (ips : list IP),
     let cert := SelfSignedCA.Issue AddDate c now1 now2 random cn dnsnames ips in
     SubjectCommonName (Leaf cert) = cn /\ NotBefore (Leaf cert) = now1
     /\ NotAfter (Leaf cert) = AddDate now2 10 0 0
     /\ KeyUsage (Leaf cert) = KeyUsageDigitalSignature
     /\ ExtKeyUsages (Leaf cert) = [ExtKeyUsageClientAuth; ExtKeyUsageServerAuth]
     /\ DNSNames (Leaf cert) = dnsnames /\ IPAddresses (Leaf cert) = ips
     /\ key_bits (PrivateKey cert) = 1024)
  /\ SelfSignedCA.BitSize (SelfSignedCA.init Samples.ca_2048) = 2048
  /\ key_bits (PrivateKey (SelfSignedCA.Issue Samples.add_date Samples.ca_2048
                             Samples.now Samples.now 42 "example.com"
                             ["example.com"; ".example.com"] [])) = 1024.
Proof.
  split; [|split; reflexivity].
  intros. repeat split.
Qed.

End CertFacts.

(** ** MITM conversation accounting *)

Module MITMFacts.

Lemma connect_ok_len : len connect_ok = 19.
Proof. reflexivity. Qed.

(** C8 (counterexample): a CONNECT whose certificate issuance fails leaves
    the proxy context without a status; one whose handshake writes 7 bytes
    and fails records a length of 7 while 26 bytes went out on the client
    socket. *)
Lemma mitm_accounting_counterexample :
  ctx_status (mr_ctx (MITMServe.ServeHTTP MethodConnect true None Samples.failed_handshake empty_ctx)) = None
  /\ ctx_length (mr_ctx (MITMServe.ServeHTTP MethodConnect true (Some Samples.sample_cert)
                           Samples.failed_handshake empty_ctx)) = Some 7
  /\ mr_socket_bytes (MITMServe.ServeHTTP MethodConnect true (Some Samples.sample_cert)
                        Samples.failed_handshake empty_ctx) = 26.
Proof. vm_compute. repeat split. Qed.

(** C8 (amended): once a certificate is obtained, the proxy context gets
    status 200 and the number of bytes written through the TLS layer,
    i.e. the socket bytes less the 19-byte preamble; when the handshake
    fails that is what the handshake wrote. When issuance fails, the
    handler answers 500 and the proxy context is left as it was. *)
Theorem mitm_records_after_cert (sess : tls_session) (ctx : proxy_ctx) :
  (forall cert : tls_cert,
     let r := MITMServe.ServeHTTP MethodConnect true (Some cert) sess ctx in
     ctx_status (mr_ctx r) = Some 200
     /\ ctx_length (mr_ctx r) = Some (mr_socket_bytes r - len connect_ok)
     /\ (hs_ok sess = false -> ctx_length (mr_ctx r) = Some (hs_written sess)))
  /\ mr_ctx (MITMServe.ServeHTTP MethodConnect true None sess ctx) = ctx
  /\ mr_error (MITMServe.ServeHTTP MethodConnect true None sess ctx) = Some 500.
Proof.
  split; [|split; reflexivity].
  intros cert. simpl. unfold MITMServe.ServeHTTP. simpl.
  split; [reflexivity|]. split.
  - f_equal. lia.
  - intros ->. reflexivity.
Qed.

Lemma mitm_records_after_cert_witness :
  ctx_status (mr_ctx (MITMServe.ServeHTTP MethodConnect true (Some Samples.sample_cert)
                        Samples.failed_handshake empty_ctx)) = Some 200
  /\ ctx_length (mr_ctx (MITMServe.ServeHTTP MethodConnect true (Some Samples.sample_cert)
                           Samples.failed_handshake empty_ctx)) = Some 7
  /\ mr_ctx (MITMServe.ServeHTTP MethodConnect true None Samples.failed_handshake empty_ctx)
     = empty_ctx.
Proof.
  destruct (mitm_records_after_cert Samples.failed_handshake empty_ctx) as [Hc [Hn _]].
  destruct (Hc Samples.sample_cert) as [H1 [_ H3]].
  split; [exact H1|]. split; [apply H3; reflexivity | exact Hn].
Defined.

End MITMFacts.

(** ** MITM inner response writer *)

Module WriterFacts.
Import MITMWriter.

Lemma run_counts (cs : list rw_call) (rw rw' : mitm_rw) :
  run rw cs = Some rw' ->
  (count_hijack cs + (if hijacked rw then 1 else 0) <= 1)%nat
  /\ (count_status cs + (if Z.eqb (statusCode rw) 0 then 0 else 1) <= 1)%nat.
Proof.
  revert rw; induction cs as [|c cs IH]; intros rw Hrun; simpl in Hrun.
  - unfold count_hijack, count_status; simpl.
    destruct (hijacked rw), (Z.eqb (statusCode rw) 0); lia.
  - destruct (step rw c) as [rw1|] eqn:Hs; [|discriminate].
    destruct (IH rw1 Hrun) as [IH1 IH2].
    unfold count_hijack, count_status in *.
    destruct c as [code|n|]; simpl in Hs |- *.
    + destruct (statusCode rw =? 0) eqn:E0; simpl in Hs; [|discriminate].
      injection Hs as <-. simpl in *.
      destruct (code =? 0); simpl in *; lia.
    + injection Hs as <-. simpl in *. lia.
    + destruct (hijacked rw) eqn:Eh; [discriminate|].
      injection Hs as <-. simpl in *. lia.
Qed.

(** C9 (counterexample): [WriteHeader(0)] followed by [WriteHeader(200)]
    runs without a panic: two successful [WriteHeader] calls. *)
Lemma write_header_twice_counterexample :
  run init [CallWriteHeader 0; CallWriteHeader 200]
  = Some {| statusCode := 200; hijacked := false; body_len := 0 |}.
Proof. reflexivity. Qed.

(** C9 (amended): [WriteHeader] panics once a nonzero status is recorded
    and [Hijack] once the writer is hijacked; in any run without a panic
    [Hijack] is called at most once and [WriteHeader] at most once with a
    nonzero code. *)
Theorem writer_single_use :
  (forall (rw : mitm_rw) (code : Z), statusCode rw <> 0 -> step rw (CallWriteHeader code) = None)
  /\ (forall rw : mitm_rw, hijacked rw = true -> step rw CallHijack = None)
  /\ (forall (cs : list rw_call) (rw : mitm_rw), run init cs = Some rw ->
      (count_hijack cs <= 1)%nat /\ (count_status cs <= 1)%nat).
Proof.
  split; [|split].
  - intros rw code H. simpl. destruct (Z.eqb_spec (statusCode rw) 0); [contradiction|reflexivity].
  - intros rw H. simpl. now rewrite H.
  - intros cs rw H. destruct (run_counts cs init rw H) as [H1 H2]. simpl in *. lia.
Qed.

Lemma writer_single_use_witness :
  step {| statusCode := 200; hijacked := false; body_len := 0 |} (CallWriteHeader 500) = None
  /\ step {| statusCode := 0; hijacked := true; body_len := 0 |} CallHijack = None
  /\ (count_hijack [CallWriteHeader 0; CallWriteHeader 200; CallHijack] <= 1)%nat.
Proof.
  destruct writer_single_use as [H1 [H2 H3]].
  split; [apply H1; simpl; lia|]. split; [apply H2; reflexivity|].
  apply (H3 _ {| statusCode := 200; hijacked := true; body_len := 0 |}). reflexivity.
Defined.

End WriterFacts.

(** ** X-Forwarded-For middleware *)

Module XFFFacts.

Lemma canonical_xff : GoHeader.CanonicalMIMEHeaderKey "x-forwarded-for" = "X-Forwarded-For".
Proof. reflexivity. Qed.

(** C10 (counterexample): a request carrying an empty [X-Forwarded-For]
    value from [127.0.0.1:50000] is forwarded with [127.0.0.1], not with
    the empty value followed by [", 127.0.0.1"]. *)
Lemma xff_empty_value_counterexample :
  match XForwardedFor (Samples.xff_request Samples.xff_empty "127.0.0.1:50000") with
  | Some rq => rq_header rq !! "X-Forwarded-For" = Some ["127.0.0.1"]
               /\ rq_header rq !! "X-Forwarded-For" <> Some [(", " ++ "127.0.0.1")%string]
  | None => False
  end.
Proof. vm_compute. split; [reflexivity | discriminate]. Qed.

(** C10 (amended): without a [host:port] remote address the middleware
    panics; otherwise [X-Forwarded-For] becomes the single value made of
    the first previous value, [", "] and the host, or the host alone when
    the header is absent or its first value is empty; other headers are
    untouched. *)
Theorem xff_sets_header (rq : request) :
  match SplitHostPort (rq_remote_addr rq) with
  | None => XForwardedFor rq = None
  | Some (host, _) =>
      exists rq', XForwardedFor rq = Some rq'
      /\ rq_header rq' !! "X-Forwarded-For"
         = Some [match rq_header rq !! "X-Forwarded-For" with
                 | Some (v :: _) => if String.eqb v "" then host else (v ++ ", " ++ host)%string
                 | _ => host
                 end]
      /\ (forall k, k <> "X-Forwarded-For" -> rq_header rq' !! k = rq_header rq !! k)
  end.
Proof.
  unfold XForwardedFor.
  destruct (SplitHostPort (rq_remote_addr rq)) as [[host port]|]; [|reflexivity].
  eexists. split; [reflexivity|]. simpl.
  unfold GoHeader.Set_, GoHeader.Get, GoHeader.Values. rewrite canonical_xff. split.
  - rewrite lookup_insert_eq. f_equal. f_equal.
    destruct (rq_header rq !! "X-Forwarded-For") as [[|v vs]|]; simpl; try reflexivity.
  - intros k Hk. rewrite lookup_insert_ne; [reflexivity|]. congruence.
Qed.

Lemma xff_sets_header_witness :
  XForwardedFor (Samples.xff_request Samples.xff_one "127.0.0.1") = None
  /\ exists rq', XForwardedFor (Samples.xff_request Samples.xff_one "127.0.0.1:50000") = Some rq'
     /\ rq_header rq' !! "X-Forwarded-For" = Some ["192.0.2.1, 127.0.0.1"].
Proof.
  split.
  - exact (xff_sets_header (Samples.xff_request Samples.xff_one "127.0.0.1")).
  - destruct (xff_sets_header (Samples.xff_request Samples.xff_one "127.0.0.1:50000"))
      as (rq' & H1 & H2 & _).
    exists rq'. split; [exact H1|]. rewrite H2. vm_compute. reflexivity.
Defined.

End XFFFacts.

(* ================================================================== *)
(** * Further properties of the code *)

Module SliceFacts.
Import StringFacts.

Lemma len_app (s t : string) : len (s ++ t) = len s + len t.
Proof. unfold len. rewrite length_app. lia. Qed.

Lemma len_cons (a : ascii) (s : string) : len (String a s) = len s + 1.
Proof. unfold len. simpl String.length. lia. Qed.

Lemma len_nonneg (s : string) : 0 <= len s.
Proof. unfold len. lia. Qed.

Lemma append_assoc (s t u : string) : ((s ++ t) ++ u)%string = (s ++ (t ++ u))%string.
Proof.
  induction s as [|a s IH]; [reflexivity|].
  rewrite !append_cons, IH. reflexivity.
Qed.

Lemma substring_prefix (p t : string) : String.substring 0 (String.length p) (p ++ t) = p.
Proof.
  induction p as [|a p IH]; [apply substring_zero|].
  rewrite append_cons. simpl. now rewrite IH.
Qed.

Lemma slice_cons_shift (a : ascii) (s : string) (i j : Z) :
  0 <= i -> slice (String a s) (i + 1) (j + 1) = slice s i j.
Proof.
  intros Hi. unfold slice. replace (j + 1 - (i + 1)) with (j - i) by lia.
  replace (Z.to_nat (i + 1)) with (S (Z.to_nat i)) by lia. reflexivity.
Qed.

Lemma slice_from_cons (a : ascii) (s : string) (i : Z) :
  0 <= i -> slice_from (String a s) (i + 1) = slice_from s i.
Proof.
  intros Hi. unfold slice_from.
  replace (Z.of_nat (String.length (String a s))) with (Z.of_nat (String.length s) + 1)
    by (simpl String.length; lia).
  now apply slice_cons_shift.
Qed.

Lemma slice_from_zero (s : string) : slice_from s 0 = s.
Proof. unfold slice_from, slice. rewrite Z.sub_0_r, Nat2Z.id. apply substring_full. Qed.

Lemma slice_from_app_shift (p t : string) (a : Z) :
  0 <= a -> slice_from (p ++ t) (len p + a) = slice_from t a.
Proof.
  intros Ha. induction p as [|c p IH]; [reflexivity|].
  rewrite append_cons. replace (len (String c p) + a) with ((len p + a) + 1) by (rewrite len_cons; lia).
  rewrite slice_from_cons by (pose proof (len_nonneg p); lia). exact IH.
Qed.

Lemma slice_from_app (p t : string) : slice_from (p ++ t) (len p) = t.
Proof.
  rewrite <- (Z.add_0_r (len p)), slice_from_app_shift by lia. apply slice_from_zero.
Qed.

Lemma slice_app_prefix (p t : string) : slice (p ++ t) 0 (len p) = p.
Proof. unfold slice, len. rewrite Z.sub_0_r, Nat2Z.id. apply substring_prefix. Qed.

Lemma IndexByte_ge (s : string) (c : ascii) : -1 <= IndexByte s c.
Proof.
  induction s as [|d s IH]; simpl; [lia|].
  destruct (Ascii.eqb c d); [lia|].
  destruct (IndexByte s c <? 0) eqn:E; [lia|]. apply Z.ltb_ge in E. lia.
Qed.

Lemma IndexByte_cons_ne (c d : ascii) (s : string) :
  Ascii.eqb c d = false ->
  IndexByte (String d s) c = if IndexByte s c <? 0 then -1 else IndexByte s c + 1.
Proof. intros E. simpl. now rewrite E. Qed.

Lemma IndexByte_none_cons (c d : ascii) (s : string) :
  IndexByte (String d s) c = -1 <-> Ascii.eqb c d = false /\ IndexByte s c = -1.
Proof.
  pose proof (IndexByte_ge s c). simpl.
  destruct (Ascii.eqb c d); [split; [lia | intros [? _]; discriminate]|].
  destruct (IndexByte s c <? 0) eqn:E.
  - apply Z.ltb_lt in E. split; [intros _; split; [reflexivity|lia] | reflexivity].
  - apply Z.ltb_ge in E. split; [lia | intros [_ ?]; lia].
Qed.

Lemma IndexByte_app_none (p t : string) (c : ascii) :
  IndexByte p c = -1 ->
  IndexByte (p ++ t) c = if IndexByte t c <? 0 then -1 else len p + IndexByte t c.
Proof.
  pose proof (IndexByte_ge t c).
  induction p as [|d p IH]; intros Hp.
  - change (("" ++ t)%string) with t. change (len "") with 0.
    destruct (IndexByte t c <? 0) eqn:E; [apply Z.ltb_lt in E|]; lia.
  - apply IndexByte_none_cons in Hp as [Hd Hp].
    rewrite append_cons, IndexByte_cons_ne by exact Hd. rewrite (IH Hp), len_cons.
    destruct (IndexByte t c <? 0) eqn:E; [reflexivity|].
    apply Z.ltb_ge in E. pose proof (len_nonneg p).
    replace (len p + IndexByte t c <? 0) with false by (symmetry; apply Z.ltb_ge; lia). lia.
Qed.

Lemma IndexByte_app_none2 (p t : string) (c : ascii) :
  IndexByte p c = -1 -> IndexByte t c = -1 -> IndexByte (p ++ t) c = -1.
Proof. intros Hp Ht. rewrite IndexByte_app_none, Ht by exact Hp. reflexivity. Qed.

Lemma last_index_aux_app (c : ascii) (s t : string) (i acc : Z) :
  last_index_aux c (s ++ t) i acc = last_index_aux c t (i + len s) (last_index_aux c s i acc).
Proof.
  revert i acc; induction s as [|d s IH]; intros i acc.
  - change (len "") with 0. rewrite Z.add_0_r. reflexivity.
  - rewrite append_cons. simpl. rewrite IH, len_cons. f_equal. lia.
Qed.

Lemma last_index_aux_none (c : ascii) (t : string) (i acc : Z) :
  IndexByte t c = -1 -> last_index_aux c t i acc = acc.
Proof.
  revert i acc; induction t as [|d t IH]; intros i acc H; [reflexivity|].
  apply IndexByte_none_cons in H as [Hd H]. simpl. rewrite Hd. now apply IH.
Qed.

Lemma all_digits_no_colon (s : string) : all_digits s = true -> IndexByte s ":" = -1.
Proof.
  induction s as [|d s IH]; intros H; [reflexivity|].
  simpl in H. apply andb_true_iff in H as [Hd Hs].
  apply IndexByte_none_cons. split; [|now apply IH].
  destruct (Ascii.eqb ":" d) eqn:E; [|reflexivity].
  apply Ascii.eqb_eq in E. subst d. discriminate Hd.
Qed.

End SliceFacts.

Module HostPortFacts.
Import StringFacts SliceFacts.

(** [url.URL.Hostname] of [host:port] with a numeric port is [host], with
    its IPv6 brackets removed. *)
Theorem Hostname_with_port (h port : string) :
  all_digits port = true ->
  Hostname (h ++ String ":" port) =
  (if HasPrefix h "[" && HasSuffix h "]" then slice h 1 (len h - 1) else h).
Proof.
  intros Hp.
  assert (Hi : LastIndexByte (h ++ String ":" port) ":" = len h).
  { unfold LastIndexByte. rewrite last_index_aux_app. simpl last_index_aux at 1.
    rewrite last_index_aux_none by now apply all_digits_no_colon. reflexivity. }
  unfold Hostname, url_splitHostPort. rewrite Hi, slice_from_app.
  replace (len h =? -1) with false by (symmetry; apply Z.eqb_neq; pose proof (len_nonneg h); lia).
  simpl validOptionalPort. rewrite Hp. simpl negb. simpl andb. cbv iota beta.
  rewrite slice_app_prefix.
  destruct (HasPrefix h "[" && HasSuffix h "]"); reflexivity.
Qed.

Lemma Hostname_with_port_witness :
  Hostname "[::1]:443" = "::1" /\ Hostname "example.com:443" = "example.com".
Proof.
  split.
  - exact (Hostname_with_port "[::1]" "443" eq_refl).
  - exact (Hostname_with_port "example.com" "443" eq_refl).
Defined.

(** [net.SplitHostPort] undoes [host:port] and [[host]:port] when the port
    has no [':'], ['['] or [']'], and the host has no brackets (and no [':']
    when it is not bracketed). *)
Theorem SplitHostPort_join (host port : string) :
  IndexByte port ":" = -1 -> IndexByte port "[" = -1 -> IndexByte port "]" = -1 ->
  (IndexByte host ":" = -1 -> IndexByte host "[" = -1 -> IndexByte host "]" = -1 ->
   SplitHostPort (host ++ String ":" port) = Some (host, port))
  /\ (IndexByte host "[" = -1 -> IndexByte host "]" = -1 ->
   SplitHostPort (String "[" (host ++ String "]" (String ":" port))) = Some (host, port)).
Proof.
  intros Pc Pl Pr. split.
  - intros Hc Hl Hr. set (s := (host ++ String ":" port)%string).
    assert (Hi : LastIndexByte s ":" = len host).
    { unfold LastIndexByte, s. rewrite last_index_aux_app. simpl last_index_aux at 1.
      rewrite last_index_aux_none by exact Pc. reflexivity. }
    assert (Hb : match byte_at s 0 with Some "["%char => true | _ => false end = false).
    { unfold s. destruct host as [|d host']; [reflexivity|].
      apply IndexByte_none_cons in Hl as [Hd _]. rewrite append_cons. unfold byte_at. simpl.
      destruct d as [[] [] [] [] [] [] [] []]; try reflexivity; discriminate Hd. }
    assert (Hsl : IndexByte s "[" = -1).
    { unfold s. apply IndexByte_app_none2; [exact Hl|]. apply IndexByte_none_cons. split; [reflexivity | exact Pl]. }
    assert (Hsr : IndexByte s "]" = -1).
    { unfold s. apply IndexByte_app_none2; [exact Hr|]. apply IndexByte_none_cons. split; [reflexivity | exact Pr]. }
    unfold SplitHostPort. rewrite Hi, Hb.
    replace (len host <? 0) with false by (symmetry; apply Z.ltb_ge; apply len_nonneg).
    assert (Hs0 : slice s 0 (len host) = host) by (unfold s; apply slice_app_prefix).
    rewrite Hs0, Hc. change (0 <=? -1) with false. cbv iota beta.
        rewrite slice_from_zero, Hsl, Hsr. change (0 <=? -1) with false. cbv iota.
    unfold s. rewrite slice_from_app_shift by lia.
    change (slice_from (String ":" port) 1) with (slice_from (String ":" port) (0 + 1)).
    rewrite slice_from_cons, slice_from_zero by lia. reflexivity.
  - intros Hl Hr. set (s := String "[" (host ++ String "]" (String ":" port))).
    assert (Hi : LastIndexByte s ":" = len host + 2).
    { unfold LastIndexByte, s. simpl last_index_aux. rewrite last_index_aux_app.
      simpl last_index_aux. rewrite last_index_aux_none by exact Pc. lia. }
    assert (He : IndexByte s "]" = len host + 1).
    { unfold s. rewrite IndexByte_cons_ne by reflexivity. rewrite IndexByte_app_none by exact Hr.
      change (IndexByte (String "]" (String ":" port)) "]") with 0.
      change (0 <? 0) with false. cbv iota.
      pose proof (len_nonneg host).
      replace (len host + 0 <? 0) with false by (symmetry; apply Z.ltb_ge; lia). lia. }
    assert (Hlen : len s = len host + 3 + len port).
    { unfold s. rewrite len_cons, len_app, !len_cons. lia. }
    unfold SplitHostPort. rewrite Hi. pose proof (len_nonneg host). pose proof (len_nonneg port).
    replace (len host + 2 <? 0) with false by (symmetry; apply Z.ltb_ge; lia).
    unfold byte_at. change (String.get (Z.to_nat 0) s) with (Some "["%char). cbv iota.
    rewrite He, Hlen.
    replace (len host + 1 <? 0) with false by (symmetry; apply Z.ltb_ge; lia).
    replace (len host + 1 + 1 =? len host + 3 + len port) with false by (symmetry; apply Z.eqb_neq; lia).
    replace (len host + 1 + 1 =? len host + 2) with true by (symmetry; apply Z.eqb_eq; lia).
    cbv iota.
    assert (Hhost : slice s 1 (len host + 1) = host).
    { unfold s. change 1 with (0 + 1) at 1. rewrite slice_cons_shift by lia. apply slice_app_prefix. }
    assert (H1 : slice_from s 1 = (host ++ String "]" (String ":" port))%string).
    { unfold s. change 1 with (0 + 1). rewrite slice_from_cons by lia. apply slice_from_zero. }
    assert (Hk : slice_from s (len host + 1 + 1) = String ":" port).
    { unfold s. rewrite slice_from_cons by lia. rewrite slice_from_app_shift by lia.
      change (slice_from (String "]" (String ":" port)) 1) with (slice_from (String "]" (String ":" port)) (0 + 1)).
      rewrite slice_from_cons, slice_from_zero by lia. reflexivity. }
    assert (Hp : slice_from s (len host + 2 + 1) = port).
    { unfold s. rewrite slice_from_cons by lia. rewrite slice_from_app_shift by lia.
      change (slice_from (String "]" (String ":" port)) 2) with (slice_from (String "]" (String ":" port)) ((0 + 1) + 1)).
      rewrite !slice_from_cons, slice_from_zero by lia. reflexivity. }
    rewrite Hhost, H1, Hk, Hp.
    assert (Hx : IndexByte (String "]" (String ":" port)) "[" = -1).
    { apply IndexByte_none_cons. split; [reflexivity|].
      apply IndexByte_none_cons. split; [reflexivity | exact Pl]. }
    rewrite (IndexByte_app_none2 host _ "[" Hl Hx).
    replace (IndexByte (String ":" port) "]") with (-1) by
      (symmetry; apply IndexByte_none_cons; split; [reflexivity | exact Pr]).
    reflexivity.
Qed.

Lemma SplitHostPort_join_witness :
  SplitHostPort "127.0.0.1:50000" = Some ("127.0.0.1", "50000")
  /\ SplitHostPort "[::1]:443" = Some ("::1", "443").
Proof.
  destruct (SplitHostPort_join "127.0.0.1" "50000" eq_refl eq_refl eq_refl) as [H1 _].
  destruct (SplitHostPort_join "::1" "443" eq_refl eq_refl eq_refl) as [_ H2].
  split; [exact (H1 eq_refl eq_refl eq_refl) | exact (H2 eq_refl eq_refl)].
Defined.

End HostPortFacts.

Module RouteFacts.

Lemma first_match_none (p : string -> option IP) ms H d :
  existsb (fun m => Matcher.matches p m H) ms = false -> Router.first_match p ms H d = d.
Proof.
  induction ms as [|m ms IH]; simpl; [reflexivity|].
  destruct (Matcher.matches p m H); [discriminate | exact IH].
Qed.

Lemma first_match_indep (p : string -> option IP) ms H d1 d2 :
  existsb (fun m => Matcher.matches p m H) ms = true ->
  Router.first_match p ms H d1 = Router.first_match p ms H d2.
Proof.
  induction ms as [|m ms IH]; simpl; [discriminate|].
  destruct (Matcher.matches p m H); [reflexivity | exact IH].
Qed.

Lemma first_match_app (p : string -> option IP) l1 l2 H d :
  Router.first_match p (l1 ++ l2) H d = Router.first_match p l1 H (Router.first_match p l2 H d).
Proof.
  induction l1 as [|m l1 IH]; simpl; [reflexivity|].
  destruct (Matcher.matches p m H); [reflexivity | exact IH].
Qed.

Lemma first_match_uniform (p : string -> option IP) ms H d h0 :
  Forall (fun m => Matcher.mhandler m = h0) ms ->
  Router.first_match p ms H d = if existsb (fun m => Matcher.matches p m H) ms then h0 else d.
Proof.
  induction 1 as [|m ms Hm _ IH]; simpl; [reflexivity|].
  destruct (Matcher.matches p m H); [exact Hm | exact IH].
Qed.

(** A pattern without a leading dot matches exactly the same hostname,
    whether or not it parses as an IP. *)
Lemma matches_exact (p : string -> option IP) (m : Matcher.matcher) (H : string) :
  HasPrefix (Matcher.tpl m) "." = false ->
  Matcher.matches p m H = String.eqb H (Matcher.tpl m).
Proof.
  intros Hs. unfold Matcher.matches, Matcher.isSuffix, Matcher.matchesIP, Matcher.matchesExact.
  rewrite Hs. destruct (Matcher.isIP p m); reflexivity.
Qed.

(** Appending a route changes the handler of a request only when the
    request is a CONNECT whose hostname no earlier route matches and the new
    pattern matches. *)
Theorem HandleConnectHost_select (p : string -> option IP) (r : Router.router) host h rq :
  Router.select p (Router.HandleConnectHost r host h) rq =
  if String.eqb (rq_method rq) MethodConnect
     && negb (existsb (fun m => Matcher.matches p m (Hostname (rq_url_host rq))) (Router.matchers r))
     && Matcher.matches p {| Matcher.tpl := host; Matcher.mhandler := h |} (Hostname (rq_url_host rq))
  then h else Router.select p r rq.
Proof.
  unfold Router.select, Router.init. simpl.
  destruct (String.eqb (rq_method rq) MethodConnect); simpl; [|reflexivity].
  rewrite first_match_app. simpl.
  destruct (existsb _ (Router.matchers r)) eqn:E; simpl.
  - apply first_match_indep. exact E.
  - rewrite !first_match_none by exact E.
    destruct (Matcher.matches _ _ _); reflexivity.
Qed.

End RouteFacts.

Module HeaderPassFacts.

Lemma fold_Del_lookup (l : list string) (h : Header) (k : string) :
  fold_left GoHeader.Del l h !! k =
  if existsb (fun x => String.eqb (GoHeader.CanonicalMIMEHeaderKey x) k) l then None else h !! k.
Proof.
  revert h; induction l as [|x l IH]; intros h; simpl; [reflexivity|].
  rewrite IH. unfold GoHeader.Del. rewrite lookup_delete.
  destruct (String.eqb_spec (GoHeader.CanonicalMIMEHeaderKey x) k) as [E|E]; simpl.
  - destruct (existsb _ l); [reflexivity|]. destruct (decide _); [reflexivity | contradiction].
  - destruct (existsb _ l); [reflexivity|]. destruct (decide _); [contradiction | reflexivity].
Qed.

Lemma hopHeaders_canonical (k : string) :
  existsb (fun x => String.eqb (GoHeader.CanonicalMIMEHeaderKey x) k) HTTPHandler.hopHeaders
  = existsb (fun x => String.eqb x k) HTTPHandler.hopHeaders.
Proof. reflexivity. Qed.

(** A non-CONNECT request with a host is sent upstream with the same method,
    URL host and remote address, an empty [RequestURI] and its headers minus
    exactly the hop-by-hop ones; a successful upstream response is relayed. *)
Theorem forwarded_request (RoundTrip : request -> response + goerror) (rq : request) :
  rq_url_host rq <> "" -> rq_method rq <> MethodConnect ->
  exists rq', fst (HTTPHandler.ServeHTTP RoundTrip rq) = Some rq'
  /\ rq_method rq' = rq_method rq /\ rq_url_host rq' = rq_url_host rq
  /\ rq_request_uri rq' = "" /\ rq_remote_addr rq' = rq_remote_addr rq
  /\ (forall k, rq_header rq' !! k =
        if existsb (fun x => String.eqb x k) HTTPHandler.hopHeaders then None
        else rq_header rq !! k)
  /\ (forall rs, RoundTrip rq' = inl rs ->
        snd (HTTPHandler.ServeHTTP RoundTrip rq) = ReplyUpstream rs).
Proof.
  intros Hh Hm. exists (HTTPHandler.prepare rq).
  assert (Hs : HTTPHandler.ServeHTTP RoundTrip rq =
    (Some (HTTPHandler.prepare rq),
     match RoundTrip (HTTPHandler.prepare rq) with
     | inr err => ReplyError (if errors_Is err ContextDeadlineExceeded then 504 else 502)
     | inl rs => ReplyUpstream rs
     end)).
  { unfold HTTPHandler.ServeHTTP.
    destruct (String.eqb_spec (rq_url_host rq) "") as [E|_]; [contradiction|].
    destruct (String.eqb_spec (rq_method rq) MethodConnect) as [E|_]; [contradiction|].
    destruct (RoundTrip _) as [rs|err]; [reflexivity|].
    destruct (errors_Is err ContextDeadlineExceeded); reflexivity. }
  rewrite Hs.
  unfold HTTPHandler.prepare. rewrite HTTPHandlerFacts.removeConnectionHeaders_after_hop.
  unfold HTTPHandler.removeHopHeaders, HTTPHandler.with_header.
  cbn [fst snd rq_method rq_url_host rq_request_uri rq_header rq_remote_addr]. split; [reflexivity|].
  do 4 (split; [reflexivity|]). split.
  - intros k. rewrite fold_Del_lookup, hopHeaders_canonical. reflexivity.
  - intros rs Hrs. rewrite Hrs. reflexivity.
Qed.

Lemma forwarded_request_witness :
  exists rq', fst (HTTPHandler.ServeHTTP (fun _ => inl Samples.ok_response) Samples.get_request) = Some rq'
  /\ rq_header rq' !! "Connection" = None /\ rq_header rq' !! "X-Foo" = Some ["bar"]
  /\ rq_request_uri rq' = "".
Proof.
  destruct (forwarded_request (fun _ => inl Samples.ok_response) Samples.get_request)
    as (rq' & H1 & _ & _ & Hu & _ & Hk & _); [discriminate | discriminate |].
  exists rq'. split; [exact H1|]. split; [|split; [|exact Hu]].
  - rewrite Hk. reflexivity.
  - rewrite Hk. vm_compute. reflexivity.
Defined.

End HeaderPassFacts.

Module TunnelServeFacts.
Import StringFacts.

Lemma IndexByte_app_found (a b : string) (c : ascii) : 0 <= IndexByte (a ++ String c b) c.
Proof.
  induction a as [|d a IH].
  - rewrite append_nil_l. simpl. rewrite Ascii.eqb_refl. lia.
  - rewrite append_cons. simpl. destruct (Ascii.eqb c d); [lia|].
    destruct (IndexByte (a ++ String c b) c <? 0) eqn:E; [apply Z.ltb_lt in E; lia | lia].
Qed.

(** A wrapper with a prefix has a [':'] in its message. *)
Lemma Error_wrap_not_timeout (k : string) (w : goerror) :
  k <> "" -> String.eqb (Error (EWrap k w)) "i/o timeout" = false.
Proof.
  intros Hk. simpl. destruct (String.eqb_spec k "") as [E|_]; [contradiction|].
  apply String.eqb_neq. intros E.
  pose proof (IndexByte_app_found k (String " " (Error w)) ":") as Hi.
  change (": " ++ Error w)%string with (String ":" (String " " (Error w))) in E.
  rewrite E in Hi. vm_compute in Hi. apply Hi. reflexivity.
Qed.

(** When the dial of a CONNECT fails, the address and timeout are those of
    the request and handler, nothing is written or relayed, and the status is
    504 only when the error wraps one whose message is ["i/o timeout"]; an
    unwrapped error, or one wrapping a prefixed wrapper, gives 502. *)
Theorem tunnel_dial_error (DialTimeout : Z) (rq : request) (err : goerror) (hijack_ok : bool)
    (client upstream : list copy_event) (ctx : proxy_ctx) :
  rq_method rq = MethodConnect ->
  let r := TunnelServe.ServeHTTP DialTimeout rq true (Some err) hijack_ok client upstream ctx in
  tr_dial r = Some (rq_request_uri rq, TunnelServe.dial_timeout DialTimeout)
  /\ tr_panic r = false /\ tr_preamble r = false /\ tr_relay r = None /\ tr_ctx r = ctx
  /\ ((exists k w, err = EWrap k w /\ Error w = "i/o timeout") -> tr_error r = Some 504)
  /\ ((forall k w, err <> EWrap k w) -> tr_error r = Some 502)
  /\ (forall k k' w, k' <> "" -> err = EWrap k (EWrap k' w) -> tr_error r = Some 502).
Proof.
  intros Hm r. unfold r, TunnelServe.ServeHTTP. rewrite Hm. simpl.
  do 5 (split; [reflexivity|]). split; [|split].
  - intros (k & w & -> & Hw). simpl. rewrite Hw. reflexivity.
  - intros Hn. destruct err as [s|msg|k w]; [reflexivity | reflexivity |].
    exfalso. exact (Hn k w eq_refl).
  - intros k k' w Hk' ->. simpl errors_Unwrap. cbv iota.
    rewrite (Error_wrap_not_timeout k' w Hk'). reflexivity.
Qed.

Lemma tunnel_dial_error_witness :
  tr_error (TunnelServe.ServeHTTP 5 (MoreSamples.connect_request "192.0.2.1:443") true
              (Some MoreSamples.dial_timeout_error) true [] [] empty_ctx) = Some 504
  /\ tr_error (TunnelServe.ServeHTTP 5 (MoreSamples.connect_request "192.0.2.1:443") true
              (Some (EWrap "dial tcp 192.0.2.1:443" (EWrap "connect" (EOther "i/o timeout"))))
              true [] [] empty_ctx) = Some 502.
Proof.
  split.
  - destruct (tunnel_dial_error 5 (MoreSamples.connect_request "192.0.2.1:443")
                MoreSamples.dial_timeout_error true [] [] empty_ctx eq_refl)
      as (_ & _ & _ & _ & _ & H & _).
    apply H. exists "dial tcp 192.0.2.1:443", (EOther "i/o timeout"). split; reflexivity.
  - destruct (tunnel_dial_error 5 (MoreSamples.connect_request "192.0.2.1:443")
                (EWrap "dial tcp 192.0.2.1:443" (EWrap "connect" (EOther "i/o timeout")))
                true [] [] empty_ctx eq_refl)
      as (_ & _ & _ & _ & _ & _ & _ & H).
    apply (H "dial tcp 192.0.2.1:443" "connect" (EOther "i/o timeout")); [discriminate | reflexivity].
Defined.

(** A successful CONNECT dials [RequestURI], writes the [200] preamble,
    records status 200, and once both relay goroutines are done the recorded
    content length is the byte count of the upstream-to-client copy. *)
Theorem tunnel_connect_relays (DialTimeout : Z) (rq : request)
    (client upstream : list copy_event) (ctx : proxy_ctx) :
  rq_method rq = MethodConnect ->
  let r := TunnelServe.ServeHTTP DialTimeout rq true None true client upstream ctx in
  tr_error r = None /\ tr_panic r = false
  /\ tr_dial r = Some (rq_request_uri rq, if 0 <? DialTimeout then Some DialTimeout else None)
  /\ tr_preamble r = true /\ ctx_status (tr_ctx r) = Some 200
  /\ exists s0, tr_relay r = Some s0
     /\ forall s, Tunnel.relay_steps s0 s -> Tunnel.wg_done s = true ->
          Tunnel.recorded_length s = Some (fst (Tunnel.copy upstream)).
Proof.
  intros Hm r. unfold r, TunnelServe.ServeHTTP. rewrite Hm. simpl.
  do 5 (split; [reflexivity|]).
  eexists. split; [reflexivity|]. intros s Hs Hd.
  pose proof (TunnelFacts.relay_steps_final client upstream s Hs) as [_ Hu].
  unfold Tunnel.wg_done in Hd. unfold Tunnel.recorded_length.
  destruct (Tunnel.c2u s) as [evs1 w1|n1 e1]; [discriminate|].
  destruct (Tunnel.u2c s) as [evs2 w2|n2 e2]; [discriminate|].
  simpl in Hu. rewrite <- Hu. reflexivity.
Qed.

Lemma tunnel_connect_relays_witness :
  tr_dial (TunnelServe.ServeHTTP 5 (MoreSamples.connect_request "example.com:443") true None true
             Samples.client_reads Samples.upstream_reads empty_ctx) = Some ("example.com:443", Some 5)
  /\ Tunnel.recorded_length Samples.relay_end = Some 4.
Proof.
  destruct (tunnel_connect_relays 5 (MoreSamples.connect_request "example.com:443")
              Samples.client_reads Samples.upstream_reads empty_ctx eq_refl)
    as (_ & _ & Hd & _ & _ & s0 & Hs0 & Hrec).
  split; [exact Hd|].
  rewrite (Hrec Samples.relay_end).
  - vm_compute. reflexivity.
  - vm_compute in Hs0. injection Hs0 as <-. exact TunnelWitness.relay_end_reachable.
  - reflexivity.
Defined.

End TunnelServeFacts.

Module CacheFacts.
Section Cache.
Variable parseIPv6 : string -> option IP.
Variable PublicSuffix : string -> string.
Variable IP_String : IP -> string.

Lemma certForRequest_some (Issue : string -> list string -> list IP -> option tls_cert)
    cache cache' h c :
  MITM.certForRequest parseIPv6 PublicSuffix IP_String Issue cache h = (cache', Some c) ->
  cache' !! fst (fst (MITM.certParams parseIPv6 PublicSuffix IP_String h)) = Some (Some c).
Proof.
  unfold MITM.certForRequest.
  destruct (MITM.certParams _ _ _ h) as [[cn d] i]. simpl.
  destruct (cache !! cn) as [[c0|]|]; simpl.
  - intros [= <- <-]. apply lookup_insert_eq.
  - destruct (Issue cn d i); [intros [= <- <-]; apply lookup_insert_eq | discriminate].
  - destruct (Issue cn d i); [intros [= <- <-]; apply lookup_insert_eq | discriminate].
Qed.

(** A cached certificate stays in the cache whatever request comes next. *)
Lemma certForRequest_keeps (Issue : string -> list string -> list IP -> option tls_cert)
    cache h k c :
  cache !! k = Some (Some c) ->
  fst (MITM.certForRequest parseIPv6 PublicSuffix IP_String Issue cache h) !! k = Some (Some c).
Proof.
  intros Hk. unfold MITM.certForRequest.
  destruct (MITM.certParams _ _ _ h) as [[cn d] i].
  destruct (decide (cn = k)) as [->|Hne].
  - rewrite Hk. simpl. rewrite insert_id by exact Hk. exact Hk.
  - destruct (cache !! cn) as [[c0|]|]; simpl;
      [|destruct (Issue cn d i)..]; simpl; rewrite ?lookup_insert_ne by exact Hne; exact Hk.
Qed.

Lemma certForRequests_keeps calls cache k c :
  cache !! k = Some (Some c) ->
  MITM.certForRequests parseIPv6 PublicSuffix IP_String cache calls !! k = Some (Some c).
Proof.
  revert cache; induction calls as [|[Issue h] calls IH]; intros cache Hk; simpl; [exact Hk|].
  apply IH. apply certForRequest_keeps. exact Hk.
Qed.

(** With the default certificate cache, a certificate obtained for one
    hostname is served from the cache, with no call to the issuer and no
    change of the cache, to every later request whose hostname has the same
    common name, whatever requests come in between. *)
Theorem cert_cache_shared (Issue Issue' : string -> list string -> list IP -> option tls_cert)
    (cache cache' : gmap string (option tls_cert)) (h1 h2 : string) (c : tls_cert)
    (calls : list ((string -> list string -> list IP -> option tls_cert) * string)) :
  MITM.certForRequest parseIPv6 PublicSuffix IP_String Issue cache h1 = (cache', Some c) ->
  fst (fst (MITM.certParams parseIPv6 PublicSuffix IP_String h2))
    = fst (fst (MITM.certParams parseIPv6 PublicSuffix IP_String h1)) ->
  let cache'' := MITM.certForRequests parseIPv6 PublicSuffix IP_String cache' calls in
  MITM.certForRequest parseIPv6 PublicSuffix IP_String Issue' cache'' h2 = (cache'', Some c).
Proof.
  intros H Hcn cache''. apply certForRequest_some in H. rewrite <- Hcn in H.
  apply (certForRequests_keeps calls) in H. fold cache'' in H.
  unfold MITM.certForRequest.
  destruct (MITM.certParams _ _ _ h2) as [[cn d] i]. simpl in H.
  rewrite H. rewrite insert_id by exact H. reflexivity.
Qed.

(** A failed issuance leaves nothing that changes the next request for the
    same hostname: it calls the issuer again as on the old cache. *)
Theorem cert_failure_not_cached (Issue Issue' : string -> list string -> list IP -> option tls_cert)
    (cache cache' : gmap string (option tls_cert)) (h : string) :
  MITM.certForRequest parseIPv6 PublicSuffix IP_String Issue cache h = (cache', None) ->
  MITM.certForRequest parseIPv6 PublicSuffix IP_String Issue' cache' h
  = MITM.certForRequest parseIPv6 PublicSuffix IP_String Issue' cache h.
Proof.
  unfold MITM.certForRequest.
  destruct (MITM.certParams _ _ _ h) as [[cn d] i].
  destruct (cache !! cn) as [[c0|]|] eqn:Ec; simpl.
  - discriminate.
  - destruct (Issue cn d i); [discriminate|]. intros [= <-].
    rewrite lookup_insert_eq, insert_insert_eq. reflexivity.
  - destruct (Issue cn d i); [discriminate|]. intros [= <-].
    rewrite lookup_insert_eq, insert_insert_eq. reflexivity.
Qed.

End Cache.

Lemma cert_cache_shared_witness :
  let cache' := fst (MITM.certForRequest (fun _ => None) Samples.last_label_suffix Samples.ipv4_string
                       Samples.issue_default ∅ "localhost") in
  let cache'' := MITM.certForRequests (fun _ => None) Samples.last_label_suffix Samples.ipv4_string
                   cache' [(Samples.issue_default, "www.example.org")] in
  MITM.certForRequest (fun _ => None) Samples.last_label_suffix Samples.ipv4_string
    (fun _ _ _ => None) cache'' "intranet"
  = (cache'', Some MoreSamples.localhost_cert).
Proof.
  intros cache' cache''.
  apply (cert_cache_shared (fun _ => None) Samples.last_label_suffix Samples.ipv4_string
           Samples.issue_default (fun _ _ _ => None) ∅ cache' "localhost" "intranet"
           MoreSamples.localhost_cert [(Samples.issue_default, "www.example.org")]).
  - vm_compute. reflexivity.
  - vm_compute. reflexivity.
Defined.

Lemma cert_failure_not_cached_witness :
  MITM.certForRequest (fun _ => None) Samples.last_label_suffix Samples.ipv4_string
    Samples.issue_default
    (fst (MITM.certForRequest (fun _ => None) Samples.last_label_suffix Samples.ipv4_string
            (fun _ _ _ => None) ∅ "www.example.com")) "www.example.com"
  = MITM.certForRequest (fun _ => None) Samples.last_label_suffix Samples.ipv4_string
      Samples.issue_default ∅ "www.example.com".
Proof.
  apply (cert_failure_not_cached (fun _ => None) Samples.last_label_suffix Samples.ipv4_string
           (fun _ _ _ => None) Samples.issue_default ∅ _ "www.example.com").
  vm_compute. reflexivity.
Defined.

End CacheFacts.

Module WriterCloseFacts.
Import MITMWriter MITMWriterClose.

Lemma run_state (cs : list rw_call) (rw rw' : mitm_rw) :
  run rw cs = Some rw' ->
  statusCode rw' = (if statusCode rw =? 0 then status_of cs else statusCode rw)
  /\ hijacked rw' = (hijacked rw || has_hijack cs)
  /\ body_len rw' = body_len rw + body_of cs.
Proof.
  revert rw; induction cs as [|c cs IH]; intros rw Hrun; simpl in Hrun.
  - injection Hrun as <-. simpl. rewrite orb_false_r. split; [|split; [reflexivity | lia]].
    destruct (statusCode rw =? 0) eqn:E; [apply Z.eqb_eq in E; exact E | reflexivity].
  - destruct (step rw c) as [rw1|] eqn:Hs; [|discriminate].
    destruct (IH rw1 Hrun) as (H1 & H2 & H3).
    destruct c as [code|n|]; simpl in Hs.
    + destruct (statusCode rw =? 0) eqn:E; simpl in Hs; [|discriminate].
      injection Hs as <-. simpl in *. rewrite H1, H2, H3. split; [reflexivity | split; reflexivity].
    + injection Hs as <-. simpl in *. rewrite H1, H2, H3. split; [reflexivity | split; [reflexivity | lia]].
    + destruct (hijacked rw) eqn:Eh; simpl in Hs; [discriminate|].
      injection Hs as <-. simpl in *. rewrite H1, H2, H3. split; [reflexivity | split; reflexivity].
Qed.

(** After a sequence of calls that does not panic, [Close] writes nothing if
    the writer was hijacked, and otherwise a response with the first nonzero
    [WriteHeader] code (0 if none) and the sum of the [Write] lengths. *)
Theorem close_response (cs : list rw_call) (rw : mitm_rw) :
  run init cs = Some rw ->
  Close rw = if has_hijack cs then None else Some (status_of cs, body_of cs).
Proof.
  intros H. destruct (run_state cs init rw H) as (Hs & Hh & Hb).
  unfold Close. rewrite Hh, Hs, Hb. simpl. destruct (has_hijack cs); reflexivity.
Qed.

Lemma close_response_witness :
  exists rw, run init [CallWrite 5; CallWriteHeader 0; CallWrite 2] = Some rw /\ Close rw = Some (0, 7).
Proof.
  eexists. split; [reflexivity|].
  rewrite (close_response [CallWrite 5; CallWriteHeader 0; CallWrite 2]) by reflexivity.
  reflexivity.
Defined.

End WriterCloseFacts.

Module ViaFacts.
Import StringFacts SliceFacts.

Lemma canonical_via : GoHeader.CanonicalMIMEHeaderKey "via" = "Via".
Proof. reflexivity. Qed.

Lemma append_not_empty (s t : string) (c : ascii) : String.eqb (s ++ String c t) "" = false.
Proof. destruct s; [rewrite append_nil_l | rewrite append_cons]; reflexivity. Qed.

(** Two [Via] middlewares in a row leave one [Via] value: the original first
    value (if nonempty) followed by both entries in order; no other header
    changes. *)
Theorem via_chain (a b : string) (rq : request) :
  let orig := GoHeader.Get (rq_header rq) "via" in
  let pre := if String.eqb orig "" then "" else (orig ++ ", ")%string in
  rq_header (ViaMW.Middleware b (ViaMW.Middleware a rq)) !! "Via"
    = Some [(pre ++ "1.1 " ++ a ++ ", 1.1 " ++ b)%string]
  /\ (forall k, k <> "Via" ->
        rq_header (ViaMW.Middleware b (ViaMW.Middleware a rq)) !! k = rq_header rq !! k).
Proof.
  intros orig pre. unfold ViaMW.Middleware. simpl.
  unfold GoHeader.Set_ at 1. rewrite canonical_via.
  assert (Hg : GoHeader.Get (GoHeader.Set_ (rq_header rq) "via" (pre ++ "1.1 " ++ a)) "via"
               = (pre ++ "1.1 " ++ a)%string).
  { unfold GoHeader.Get, GoHeader.Values, GoHeader.Set_. rewrite canonical_via, lookup_insert_eq.
    reflexivity. }
  fold orig pre. rewrite Hg.
  change ("1.1 " ++ a)%string with (String "1" (".1 " ++ a))%string.
  rewrite append_not_empty. split.
  - rewrite lookup_insert_eq. rewrite !append_assoc. reflexivity.
  - intros k Hk. unfold GoHeader.Set_. rewrite canonical_via.
    rewrite !lookup_insert_ne by congruence. reflexivity.
Qed.

End ViaFacts.

Module CopyFacts.

Lemma io_Copy_from_full (evs : list copy_event) (w : Z) :
  Forall (fun e => 0 <= ev_nr e /\ ev_nw e = ev_nr e /\ ev_ew e = None /\ ev_er e = None) evs ->
  io_Copy_from evs w = (fold_left Z.add (map ev_nr evs) w, None).
Proof.
  intros Hf. revert w; induction Hf as [|e evs (Hnr & Hnw & Hew & Her) _ IH]; intros w; simpl;
    [reflexivity|].
  unfold copy_iter. rewrite Hnw, Hew, Her, Z.eqb_refl. simpl.
  destruct (0 <? ev_nr e) eqn:E; simpl.
  - rewrite IH. reflexivity.
  - assert (ev_nr e = 0) as -> by (apply Z.ltb_ge in E; lia).
    rewrite IH, Z.add_0_r. reflexivity.
Qed.

(** When every read is written in full and no error occurs, [io.Copy] and
    [Tunnel.copy] return the sum of the reads and no error. *)
Theorem io_Copy_full_writes (evs : list copy_event) :
  Forall (fun e => 0 <= ev_nr e /\ ev_nw e = ev_nr e /\ ev_ew e = None /\ ev_er e = None) evs ->
  io_Copy evs = (fold_left Z.add (map ev_nr evs) 0, None)
  /\ Tunnel.copy evs = (fold_left Z.add (map ev_nr evs) 0, None).
Proof.
  intros Hf. unfold Tunnel.copy, io_Copy. rewrite (io_Copy_from_full evs 0 Hf).
  split; reflexivity.
Qed.

Lemma io_Copy_full_writes_witness :
  io_Copy MoreSamples.upstream_full = (10, None) /\ Tunnel.copy MoreSamples.upstream_full = (10, None).
Proof.
  apply io_Copy_full_writes.
  repeat constructor; discriminate.
Defined.

End CopyFacts.


Module SplitFacts.
Import StringFacts SliceFacts.

Lemma append_nil_r (s : string) : (s ++ "")%string = s.
Proof. induction s as [|a s IH]; [reflexivity|]. rewrite append_cons, IH. reflexivity. Qed.

Lemma string_of_list_ascii_app (l m : list ascii) :
  string_of_list_ascii (l ++ m) = (string_of_list_ascii l ++ string_of_list_ascii m)%string.
Proof.
  induction l as [|c l IH]; simpl; [rewrite append_nil_l; reflexivity|].
  rewrite IH, append_cons. reflexivity.
Qed.

Lemma Split_aux_nonempty (sep : ascii) (s : string) (acc : list ascii) : Split_aux sep s acc <> [].
Proof.
  revert acc; induction s as [|c s IH]; intros acc; simpl; [discriminate|].
  destruct (Ascii.eqb c sep); [discriminate | apply IH].
Qed.

Lemma concat_cons (sep x : string) (l : list string) :
  l <> [] -> String.concat sep (x :: l) = (x ++ sep ++ String.concat sep l)%string.
Proof. destruct l; [contradiction | reflexivity]. Qed.

Lemma Split_aux_join (sep : ascii) (s : string) (acc : list ascii) :
  String.concat (String sep "") (Split_aux sep s acc) = (string_of_list_ascii (rev acc) ++ s)%string.
Proof.
  revert acc; induction s as [|c s IH]; intros acc; simpl.
  - rewrite append_nil_r. reflexivity.
  - destruct (Ascii.eqb c sep) eqn:E.
    + apply Ascii.eqb_eq in E. subst c.
      rewrite concat_cons by apply Split_aux_nonempty. rewrite IH. simpl.
      rewrite append_nil_l, append_cons, append_nil_l. reflexivity.
    + rewrite IH. simpl. rewrite string_of_list_ascii_app, append_assoc. simpl.
      rewrite append_cons, append_nil_l. reflexivity.
Qed.

(** Joining the parts of [strings.Split] with the separator gives back the
    input. *)
Theorem Split_join (s : string) (sep : ascii) : String.concat (String sep "") (Split s sep) = s.
Proof. unfold Split. rewrite Split_aux_join. apply append_nil_l. Qed.

End SplitFacts.

Module MainFacts.

Lemma register_loop_no_star (f : string -> string) mux h names :
  ~ In "*" (map (TrimSpace f) names) ->
  register_loop f mux h names =
  ({| Router.Default := Router.Default mux; Router.Connect := Router.Connect mux;
      Router.NotFound := Router.NotFound mux;
      Router.matchers := Router.matchers mux
        ++ map (fun e => {| Matcher.tpl := e; Matcher.mhandler := h |}) (map (TrimSpace f) names) |},
   None).
Proof.
  revert mux; induction names as [|n names IH]; intros mux Hn; simpl in *.
  - rewrite app_nil_r. destruct mux; reflexivity.
  - destruct (String.eqb_spec (TrimSpace f n) "*") as [E|E]; [exfalso; apply Hn; left; auto|].
    simpl. rewrite IH by tauto. simpl. rewrite <- app_assoc. reflexivity.
Qed.

(** With no entry equal to ["*"] after trimming, [registerHandler] returns
    no error, leaves the fallbacks unchanged and appends one route per
    comma-separated entry, trimmed, in order. *)
Theorem registerHandler_routes (f : string -> string) (mux : Router.router) (h : handler)
    (hostnames : string) :
  ~ In "*" (map (TrimSpace f) (Split hostnames ",")) ->
  registerHandler f mux h hostnames =
  ({| Router.Default := Router.Default mux; Router.Connect := Router.Connect mux;
      Router.NotFound := Router.NotFound mux;
      Router.matchers := Router.matchers mux
        ++ map (fun e => {| Matcher.tpl := e; Matcher.mhandler := h |})
             (map (TrimSpace f) (Split hostnames ",")) |}, None).
Proof. apply register_loop_no_star. Qed.

Lemma registerHandler_routes_witness :
  registerHandler (fun s => s)
    {| Router.Default := None; Router.Connect := None; Router.NotFound := None; Router.matchers := [] |}
    (HUser "mitm") " example.com , .example.org"
  = ({| Router.Default := None; Router.Connect := None; Router.NotFound := None;
        Router.matchers := [{| Matcher.tpl := "example.com"; Matcher.mhandler := HUser "mitm" |};
                            {| Matcher.tpl := ".example.org"; Matcher.mhandler := HUser "mitm" |}] |},
     None).
Proof.
  rewrite registerHandler_routes by (vm_compute; intros [E|[E|[]]]; discriminate).
  vm_compute. reflexivity.
Defined.

Lemma register_loop_fallback (f : string -> string) mux h names mux' :
  register_loop f mux h names = (mux', None) ->
  (count_occ string_dec (map (TrimSpace f) names) "*" = 0%nat -> Router.Connect mux' = Router.Connect mux)
  /\ ((1 <= count_occ string_dec (map (TrimSpace f) names) "*")%nat ->
      Router.Connect mux = None /\ count_occ string_dec (map (TrimSpace f) names) "*" = 1%nat
      /\ Router.Connect mux' <> None).
Proof.
  revert mux; induction names as [|n names IH]; intros mux Hr; simpl in *.
  - injection Hr as <-. split; [reflexivity | lia].
  - destruct (string_dec (TrimSpace f n) "*") as [E|E].
    + rewrite E in Hr. simpl in Hr. destruct (Router.Connect mux) as [c|] eqn:Ec; [discriminate|].
      destruct (IH _ Hr) as [H0 H1]. simpl in H0, H1. split; [lia|]. intros _.
      destruct (count_occ string_dec (map (TrimSpace f) names) "*") eqn:Cn.
      * rewrite H0 by reflexivity. split; [reflexivity | split; [reflexivity | discriminate]].
      * destruct (H1 ltac:(lia)) as [Hc _]. discriminate.
    + assert (E' : String.eqb (TrimSpace f n) "*" = false) by (apply String.eqb_neq; exact E).
      rewrite E' in Hr. simpl in Hr. exact (IH _ Hr).
Qed.

Lemma count_star_empty (f : string -> string) :
  count_occ string_dec (map (TrimSpace f) (Split "" ",")) "*" = 0%nat.
Proof. reflexivity. Qed.

(** Two ["*"] entries over [-mitm] and [-tunnel] together are fatal. *)
Theorem main_fallback_twice (f : string -> string) (optMitm optTunnel : string) :
  (2 <= count_occ string_dec
          (map (TrimSpace f) (Split optMitm ",") ++ map (TrimSpace f) (Split optTunnel ",")) "*")%nat ->
  main_router f optMitm optTunnel = None.
Proof.
  intros Hc. rewrite count_occ_app in Hc. unfold main_router.
  destruct (String.eqb_spec optMitm "") as [Em|Em];
    [destruct (String.eqb_spec optTunnel "") as [Et|Et]|]; simpl.
  - subst. rewrite count_star_empty in Hc. simpl in Hc. lia.
  - unfold registerHandler.
    destruct (register_loop f _ (HUser "mitm") (Split optMitm ",")) as [mux1 [e1|]] eqn:R1;
      [reflexivity|].
    destruct (register_loop f mux1 (HUser "tunnel") (Split optTunnel ",")) as [mux2 [e2|]] eqn:R2;
      [reflexivity|].
    exfalso. subst optMitm. rewrite count_star_empty in Hc.
    destruct (register_loop_fallback f _ _ _ _ R1) as [A0 _].
    destruct (register_loop_fallback f _ _ _ _ R2) as [_ B1].
    destruct (B1 ltac:(lia)) as (_ & Hn & _). lia.
  - unfold registerHandler.
    destruct (register_loop f _ (HUser "mitm") (Split optMitm ",")) as [mux1 [e1|]] eqn:R1;
      [reflexivity|].
    destruct (register_loop f mux1 (HUser "tunnel") (Split optTunnel ",")) as [mux2 [e2|]] eqn:R2;
      [reflexivity|].
    exfalso.
    destruct (register_loop_fallback f _ _ _ _ R1) as [A0 A1].
    destruct (register_loop_fallback f _ _ _ _ R2) as [B0 B1].
    destruct (count_occ string_dec (map (TrimSpace f) (Split optMitm ",")) "*") as [|m] eqn:Cm.
    + simpl in Hc. destruct (B1 ltac:(lia)) as (_ & Hn & _). lia.
    + destruct (A1 ltac:(lia)) as (_ & Hm1 & Hmux1).
      destruct (count_occ string_dec (map (TrimSpace f) (Split optTunnel ",")) "*") eqn:Ct;
        [lia|].
      destruct (B1 ltac:(lia)) as (Hc1 & _). contradiction.
Qed.

Lemma main_fallback_twice_witness : main_router (fun s => s) "*" " * " = None.
Proof. apply main_fallback_twice. vm_compute. lia. Defined.

(** With both flags empty, a CONNECT goes to the tunnel chain unless its
    hostname is empty (the mitm route for [""]); other requests go to the
    http chain when the URL has a host, and to [NotFound] otherwise. *)
Theorem main_default_flags (f : string -> string) (p : string -> option IP) (rq : request) :
  exists r, main_router f "" "" = Some r /\
  Router.select p r rq =
    if String.eqb (rq_method rq) MethodConnect then
      (if String.eqb (Hostname (rq_url_host rq)) "" then HUser "mitm" else HUser "tunnel")
    else if String.eqb (rq_url_host rq) "" then HNotFound else HUser "http".
Proof.
  eexists. split; [reflexivity|].
  unfold Router.select, Router.init. simpl.
  destruct (String.eqb (rq_method rq) MethodConnect); [|destruct (String.eqb (rq_url_host rq) ""); reflexivity].
  rewrite (RouteFacts.matches_exact p) by reflexivity. simpl.
  change (TrimSpace f "") with "".
  destruct (String.eqb (Hostname (rq_url_host rq)) ""); reflexivity.
Qed.

Lemma existsb_map_tpl (p : string -> option IP) (h : handler) (H : string) (l : list string) :
  existsb (fun m => Matcher.matches p m H)
    (map (fun e => {| Matcher.tpl := e; Matcher.mhandler := h |}) l)
  = existsb (fun e => Matcher.matches p {| Matcher.tpl := e; Matcher.mhandler := h |} H) l.
Proof. induction l as [|e l IH]; simpl; [reflexivity|]. rewrite IH. reflexivity. Qed.

(** With only [-mitm] set and no ["*"] in it, a CONNECT goes to the mitm
    chain when one of its trimmed entries matches the hostname, to the tunnel
    chain (registered for [""]) when the hostname is empty, and to
    [MethodNotAllowed] otherwise. *)
Theorem main_mitm_only (f : string -> string) (p : string -> option IP) (L : string) (rq : request) :
  L <> "" -> ~ In "*" (map (TrimSpace f) (Split L ",")) ->
  rq_method rq = MethodConnect ->
  exists r, main_router f L "" = Some r /\
  Router.select p r rq =
    if existsb (fun e => Matcher.matches p {| Matcher.tpl := e; Matcher.mhandler := HUser "mitm" |}
                           (Hostname (rq_url_host rq)))
               (map (TrimSpace f) (Split L ","))
    then HUser "mitm"
    else if String.eqb (Hostname (rq_url_host rq)) "" then HUser "tunnel" else HMethodNotAllowed.
Proof.
  intros HL Hstar Hm. unfold main_router.
  destruct (String.eqb_spec L "") as [E|_]; [contradiction|]. simpl.
  unfold registerHandler at 1. rewrite register_loop_no_star by exact Hstar. simpl.
  unfold registerHandler. simpl.
  eexists. split; [reflexivity|].
  unfold Router.select, Router.init. simpl. rewrite Hm. simpl.
  rewrite RouteFacts.first_match_app. simpl.
  rewrite (RouteFacts.matches_exact p) by reflexivity. simpl.
  rewrite (RouteFacts.first_match_uniform p _ _ _ (HUser "mitm")).
  - rewrite existsb_map_tpl. reflexivity.
  - clear. induction (map (TrimSpace f) (Split L ",")) as [|e l IH]; simpl; constructor;
      [reflexivity | exact IH].
Qed.

Lemma main_mitm_only_witness :
  exists r, main_router (fun s => s) "example.com, .example.org" "" = Some r
  /\ Router.select (fun _ => None) r (MoreSamples.connect_request "other.net:443") = HMethodNotAllowed
  /\ Router.select (fun _ => None) r (MoreSamples.connect_request "www.example.org:443") = HUser "mitm".
Proof.
  destruct (main_mitm_only (fun s => s) (fun _ => None) "example.com, .example.org"
              (MoreSamples.connect_request "other.net:443")) as (r & H1 & H2);
    [discriminate | vm_compute; intros [E|[E|[]]]; discriminate | reflexivity |].
  destruct (main_mitm_only (fun s => s) (fun _ => None) "example.com, .example.org"
              (MoreSamples.connect_request "www.example.org:443")) as (r' & H1' & H3);
    [discriminate | vm_compute; intros [E|[E|[]]]; discriminate | reflexivity |].
  rewrite H1 in H1'. injection H1' as <-.
  exists r. split; [exact H1|]. split.
  - rewrite H2. vm_compute. reflexivity.
  - rewrite H3. vm_compute. reflexivity.
Defined.

End MainFacts.
